(** * example_imf.py: the solar-wind (IMF) file loader and its derived
      quantities

    A shallow embedding of the class [ImfData] of [example_imf.py]: the
    dictionary behind the object is a finite map from field names to
    columns, the methods are computations in a state-and-exception monad
    over the object, and numpy's float64 and the [datetime] parser are
    interfaces the program is generic in.  float64 is instantiated by
    IEEE 754 binary64, and by the real numbers for examples in which no
    rounding occurs. *)

From Stdlib Require Import PrimFloat.
From Stdlib Require Uint63 FloatAxioms.
From Stdlib Require Import Reals Lra Ascii String.
From stdpp Require Import gmap strings list fin_maps.

Local Open Scope string_scope.

(** ** Python strings

    A string is a sequence of code points below 256 (Rocq's [ascii]). *)

(** [str.isspace] on code points below 256: tab, line feed, vertical tab,
    form feed, carriage return, the four separators 28..31, space, NEL
    (133) and the no-break space (160). *)
Definition isspace (c : ascii) : bool :=
  let n := nat_of_ascii c in
  (((9 <=? n) && (n <=? 13)) || ((28 <=? n) && (n <=? 32))
   || (n =? 133) || (n =? 160))%nat.

(** [s.lstrip()] *)
Fixpoint lstrip (s : string) : string :=
  match s with
  | EmptyString => EmptyString
  | String c s' => if isspace c then lstrip s' else s
  end.

(** [s.rstrip()] *)
Fixpoint rstrip (s : string) : string :=
  match s with
  | EmptyString => EmptyString
  | String c s' =>
      match rstrip s' with
      | EmptyString => if isspace c then EmptyString else String c EmptyString
      | r => String c r
      end
  end.

(** [s.strip()] *)
Definition strip (s : string) : string := rstrip (lstrip s).

(** [s.split()] with no separator: the maximal runs of non-space
    characters, in order.  [tok] is the run being read, reversed. *)
Definition flush (tok : list ascii) : list string :=
  match tok with
  | [] => []
  | _ => [string_of_list_ascii (rev tok)]
  end.

Fixpoint split_from (tok : list ascii) (s : string) : list string :=
  match s with
  | EmptyString => flush tok
  | String c s' =>
      if isspace c then flush tok ++ split_from [] s'
      else split_from (c :: tok) s'
  end.

Definition split (s : string) : list string := split_from [] s.

(** [sep.join(l)] *)
Fixpoint join (sep : string) (l : list string) : string :=
  match l with
  | [] => EmptyString
  | [x] => x
  | x :: l' => x ++ sep ++ join sep l'
  end.

(** ** The libraries the program calls

    numpy's float64 arithmetic and Python's [float()] are an interface:
    the program is generic in the carrier [F] and in the operations. *)
Class Float64 (F : Type) := {
  (** a decimal literal [m * 10^e]: [4] is [f_lit 4 0], [1E-7] is
      [f_lit 1 (-7)] *)
  f_lit : Z -> Z -> F;
  (** [np.pi] *)
  f_pi : F;
  f_add : F -> F -> F;
  f_mul : F -> F -> F;
  f_div : F -> F -> F;
  (** [a ** n] for an integer literal [n], on an element of an array
      (numpy's power) *)
  f_powi : F -> Z -> F;
  (** [x ** n] for an integer literal [n], on a Python float *)
  f_pypow : F -> Z -> F;
  (** [np.sqrt], [np.sin], [np.arctan2] on one element *)
  f_sqrt : F -> F;
  f_sin : F -> F;
  f_arctan2 : F -> F -> F;
  (** [float(s)]; [None] stands for the ValueError *)
  float_of_str : string -> option F
}.

(** [datetime.datetime.strptime(s, fmt)]; [None] stands for the
    ValueError. *)
Class DateTime (T : Type) := {
  strptime : string -> string -> option T
}.

(** ** Values *)

(** The values a caller may pass as file name, by their exact type.  A
    string is an instance of [str] itself ([PyStr]) or of a class derived
    from it ([PyStrSub], with the name of the class: [numpy.str_], or a
    [class S(str)] of the caller); both hold characters. *)
Inductive pyval :=
  | PyNone
  | PyBool (b : bool)
  | PyInt (z : Z)
  | PyBytes (b : string)
  | PyStr (s : string)
  | PyStrSub (cls : string) (s : string).

Inductive pytype :=
  | NoneType | t_bool | t_int | t_bytes | t_str
  | t_str_subclass (cls : string).

(** [type(v)] *)
Definition type_of (v : pyval) : pytype :=
  match v with
  | PyNone => NoneType
  | PyBool _ => t_bool
  | PyInt _ => t_int
  | PyBytes _ => t_bytes
  | PyStr _ => t_str
  | PyStrSub cls _ => t_str_subclass cls
  end.

(** [a == b] on types: the same class. *)
Definition pytype_eqb (a b : pytype) : bool :=
  match a, b with
  | NoneType, NoneType | t_bool, t_bool | t_int, t_int
  | t_bytes, t_bytes | t_str, t_str => true
  | t_str_subclass c, t_str_subclass c' => String.eqb c c'
  | _, _ => false
  end.

(** [isinstance(v, str)]: the value is a string. *)
Definition isinstance_str (v : pyval) : bool :=
  match v with
  | PyStr _ | PyStrSub _ _ => true
  | _ => false
  end.

Inductive exn :=
  | TypeError (msg : string)
  | ValueError
  | KeyError (k : string)
  | IndexError
  | OSError.

(** The elements of an array of dtype [object]. *)
Inductive pyobj (T : Type) :=
  | OInt (z : Z)
  | OStr (s : string)
  | ODatetime (t : T).
Arguments OInt {T} z.
Arguments OStr {T} s.
Arguments ODatetime {T} t.

(** A one-dimensional numpy array: of floats, or of objects. *)
Inductive column (F T : Type) :=
  | FloatArr (l : list F)
  | ObjArr (l : list (pyobj T)).
Arguments FloatArr {F T} l.
Arguments ObjArr {F T} l.

Definition col_len {F T} (c : column F T) : nat :=
  match c with
  | FloatArr l => length l
  | ObjArr l => length l
  end.

(** The object: the attribute [file] and the dictionary it inherits. *)
Record ImfData (F T : Type) := mkImfData {
  file : pyval;
  items : gmap string (column F T)
}.
Arguments mkImfData {F T} file items.
Arguments file {F T} i.
Arguments items {F T} i.

Inductive io_event :=
  | EvOpen (name : string)
  | EvClose (name : string).

(** What a method threads through: the object and the file operations
    performed so far. *)
Record world (F T : Type) := mkWorld {
  self : ImfData F T;
  io : list io_event
}.
Arguments mkWorld {F T} self io.
Arguments self {F T} w.
Arguments io {F T} w.

(** How a call ends: it returns, it raises, or it is still running when
    the fuel of its [while] loop is spent. *)
Inductive outcome (A : Type) :=
  | Return (a : A)
  | Raise (e : exn)
  | Running.
Arguments Return {A} a.
Arguments Raise {A} e.
Arguments Running {A}.

(** ** The program *)

(** The variable names of a data line, in file order ([keys] in
    [_read_data]). *)
Definition keys : list string :=
  ["bx"; "by"; "bz"; "vx"; "vy"; "vz"; "rho"; "temp"].

(** A file name with a NUL character in it. *)
Definition has_nul (name : string) : bool :=
  existsb (Ascii.eqb "000"%char) (list_ascii_of_string name).

(** The exception [open(name, 'r')] raises for a name it does not open:
    the ValueError "embedded null byte" for a name with a NUL character,
    which is refused before the system is asked; otherwise the OSError of
    the system (FileNotFoundError, PermissionError, IsADirectoryError and
    the like).  The other characters of a name are taken to be encodable
    in the encoding of the file system, as they are in UTF-8. *)
Definition open_error (name : string) : exn :=
  if has_nul name then ValueError else OSError.

(** [f.readline()] on the lines a file object has left: the next line, or
    the empty string for ever once the file is exhausted. *)
Definition readline (f : list string) : string * list string :=
  match f with
  | [] => (EmptyString, [])
  | l :: f' => (l, f')
  end.

(** [enumerate(l)] *)
Definition enumerate {A} (l : list A) : list (nat * A) :=
  imap (fun i x => (i, x)) l.

(** numpy's broadcasting of a binary ufunc over two one-dimensional
    arrays: equal lengths pair up, a length-one array is stretched, any
    other pair of shapes is the ValueError. *)
Definition broadcast {A} (f : A -> A -> A) (xs ys : list A) : option (list A) :=
  if decide (length xs = length ys) then Some (zip_with f xs ys)
  else match xs, ys with
       | [x], _ => Some (map (f x) ys)
       | _, [y] => Some (map (fun x => f x y) xs)
       | _, _ => None
       end.

Section Program.
Context {F T : Type} {NP : Float64 F} {DT : DateTime T}.

(** The files of the machine that [open] opens for reading, each as its
    list of lines (every line with its line end); [None] for a name that
    [open] fails on.  No file has a NUL character in its name. *)
Variable fs : string -> option (list string).

(** *** The monad of the methods *)

Definition M (A : Type) : Type := world F T -> outcome A * world F T.

Definition ret {A} (a : A) : M A := fun w => (Return a, w).
Definition raise {A} (e : exn) : M A := fun w => (Raise e, w).
Definition running {A} : M A := fun w => (Running, w).
Definition bind {A B} (m : M A) (k : A -> M B) : M B :=
  fun w =>
    match m w with
    | (Return a, w') => k a w'
    | (Raise e, w') => (Raise e, w')
    | (Running, w') => (Running, w')
    end.

#[global] Instance M_ret : MRet M := @ret.
#[global] Instance M_bind : MBind M := fun A B k m => bind m k.

Definition lift {A} (r : exn + A) : M A :=
  match r with
  | inl e => raise e
  | inr a => ret a
  end.

(** [for x in l: body] *)
Fixpoint for_each {A} (l : list A) (body : A -> M unit) : M unit :=
  match l with
  | [] => ret tt
  | x :: l' => body x;; for_each l' body
  end.

(** *** The dictionary and the attribute *)

(** [self.file] *)
Definition get_file : M pyval := fun w => (Return (file (self w)), w).

(** [self.file = v] *)
Definition set_file (v : pyval) : M unit :=
  fun w => (Return tt, mkWorld (mkImfData v (items (self w))) (io w)).

(** [self[k]] *)
Definition dict_get (k : string) : M (column F T) :=
  fun w =>
    match items (self w) !! k with
    | Some c => (Return c, w)
    | None => (Raise (KeyError k), w)
    end.

(** [self[k] = c] *)
Definition dict_set (k : string) (c : column F T) : M unit :=
  fun w =>
    (Return tt,
     mkWorld (mkImfData (file (self w)) (<[k:=c]> (items (self w)))) (io w)).

(** [k in self] *)
Definition dict_in (k : string) : M bool :=
  fun w => (Return (bool_decide (is_Some (items (self w) !! k))), w).

(** *** numpy *)

Definition zero : F := f_lit 0 0.

(** [np.zeros(n)] and [np.zeros(n, dtype='object')] *)
Definition np_zeros (n : nat) : column F T := FloatArr (replicate n zero).
Definition np_zeros_object (n : nat) : column F T :=
  ObjArr (replicate n (OInt 0)).

(** The ufuncs.  Arithmetic on an array of objects is delegated by numpy
    to the elements; for the timestamps the loader stores it is a
    TypeError, and the model raises it for every array of objects. *)
Definition np_type_error : exn :=
  TypeError "ufunc not supported for the input types".

Definition np_map (f : F -> F) (a : column F T) : exn + column F T :=
  match a with
  | FloatArr xs => inr (FloatArr (map f xs))
  | ObjArr _ => inl np_type_error
  end.

Definition np_zip (f : F -> F -> F) (a b : column F T) : exn + column F T :=
  match a, b with
  | FloatArr xs, FloatArr ys =>
      match broadcast f xs ys with
      | Some l => inr (FloatArr l)
      | None => inl ValueError
      end
  | _, _ => inl np_type_error
  end.

(** [a[i] = v]: the index is checked, the value is converted to the
    dtype of the array, the slot is overwritten. *)
Definition arr_setitem (a : column F T) (i : nat) (v : pyobj T)
  : exn + column F T :=
  match a with
  | FloatArr xs =>
      if decide (i < length xs)%nat then
        match v with
        | OStr s =>
            match float_of_str s with
            | Some x => inr (FloatArr (<[i:=x]> xs))
            | None => inl ValueError
            end
        | OInt z => inr (FloatArr (<[i:=f_lit z 0]> xs))
        | ODatetime _ =>
            inl (TypeError "float() argument must be a string or a real number")
        end
      else inl IndexError
  | ObjArr xs =>
      if decide (i < length xs)%nat then inr (ObjArr (<[i:=v]> xs))
      else inl IndexError
  end.

(** [self[k][i] = v]: the array is the one the dictionary holds. *)
Definition store (k : string) (i : nat) (v : pyobj T) : M unit :=
  a ← dict_get k;
  a' ← lift (arr_setitem a i v);
  dict_set k a'.

(** *** The derived quantities *)

Definition calc_b : M unit :=
  bx ← dict_get "bx";
  bx2 ← lift (np_map (fun x => f_powi x 2) bx);
  by_ ← dict_get "by";
  by2 ← lift (np_map (fun x => f_powi x 2) by_);
  s ← lift (np_zip f_add bx2 by2);
  bz ← dict_get "bz";
  bz2 ← lift (np_map (fun x => f_powi x 2) bz);
  s' ← lift (np_zip f_add s bz2);
  b ← lift (np_map f_sqrt s');
  dict_set "b" b.

Definition calc_v : M unit :=
  vx ← dict_get "vx";
  vx2 ← lift (np_map (fun x => f_powi x 2) vx);
  vy ← dict_get "vy";
  vy2 ← lift (np_map (fun x => f_powi x 2) vy);
  s ← lift (np_zip f_add vx2 vy2);
  vz ← dict_get "vz";
  vz2 ← lift (np_map (fun x => f_powi x 2) vz);
  s' ← lift (np_zip f_add s vz2);
  v ← lift (np_map f_sqrt s');
  dict_set "v" v.

Definition calc_clock : M unit :=
  by_ ← dict_get "by";
  bz ← dict_get "bz";
  c ← lift (np_zip f_arctan2 by_ bz);
  dict_set "clock" c.

(** [mu_o] and [conv] of [calc_epsilon] *)
Definition mu_o : F := f_mul (f_mul (f_lit 4 0) f_pi) (f_lit 1 (-7)).
Definition conv : F :=
  f_div (f_mul (f_lit 1000 0) (f_pypow (f_lit 1 (-9)) 2)) mu_o.

Definition calc_epsilon : M unit :=
  has_b ← dict_in "b";
  (if negb has_b then calc_b else ret tt);;
  has_v ← dict_in "v";
  (if negb has_v then calc_v else ret tt);;
  has_clock ← dict_in "clock";
  (if negb has_clock then calc_clock else ret tt);;
  v ← dict_get "v";
  cv ← lift (np_map (f_mul conv) v);
  b ← dict_get "b";
  b2 ← lift (np_map (fun x => f_powi x 2) b);
  cvb ← lift (np_zip f_mul cv b2);
  clock ← dict_get "clock";
  half ← lift (np_map (fun x => f_div x (f_lit 2 0)) clock);
  sn ← lift (np_map f_sin half);
  sn4 ← lift (np_map (fun x => f_powi x 4) sn);
  e ← lift (np_zip f_mul cvb sn4);
  dict_set "epsilon" e.

(** *** The loader *)

(** [open(v, 'r')] for a file name that passed the type check: the file
    with the characters of the string as its name is opened, or the
    exception of [open] for that name is raised. *)
Definition py_open (v : pyval) : M (list string) :=
  fun w =>
    match v with
    | PyStr name | PyStrSub _ name =>
        let w' := mkWorld (self w) (io w ++ [EvOpen name]) in
        match fs name with
        | Some lines => (Return lines, w')
        | None => (Raise (open_error name), w')
        end
    | _ => (Raise (TypeError "expected str, bytes or os.PathLike object"), w)
    end.

(** [f.close()] *)
Definition py_close (v : pyval) : M unit :=
  fun w =>
    match v with
    | PyStr name | PyStrSub _ name =>
        (Return tt, mkWorld (self w) (io w ++ [EvClose name]))
    | _ => (Return tt, w)
    end.

(** The header loop, [while line.strip() != '#START': line=f.readline()],
    run for at most [fuel] passes through its body; it returns the lines
    the file object has left when the loop exits. *)
Fixpoint skip_header (fuel : nat) (line : string) (f : list string)
  : M (list string) :=
  if negb (String.eqb (strip line) "#START") then
    match fuel with
    | O => running
    | S fuel' => let '(line', f') := readline f in skip_header fuel' line' f'
    end
  else ret f.

(** The body of [for i, l in enumerate(lines)] *)
Definition parse_line (il : nat * string) : M unit :=
  let '(i, l) := il in
  let parts := split l in
  let tNow := join " " (take 6 parts) in
  t ← lift (from_option inr (inl ValueError)
              (strptime tNow "%Y %m %d %H %M %S"));
  store "time" i (ODatetime t);;
  for_each (zip keys (drop 7 parts)) (fun kp => store kp.1 i (OStr kp.2)).

Definition _read_data (fuel : nat) : M unit :=
  name ← get_file;
  if negb (pytype_eqb (type_of name) (type_of (PyStr "str"))) then
    raise (TypeError "Input file name must be a string.")
  else
    f ← py_open name;
    let '(line, f) := readline f in
    lines ← skip_header fuel line f;
    py_close name;;
    let nLines := length lines in
    dict_set "time" (np_zeros_object nLines);;
    for_each keys (fun k => dict_set k (np_zeros nLines));;
    for_each (enumerate lines) parse_line.

(** [ImfData(filename)] initialises a new object.  The call
    [super(ImfData, self).__init__(self)] updates the dictionary with its
    own entries and so changes nothing; then the file name is stored and
    the data are read. *)
Definition __init__ (filename : pyval) (fuel : nat) : M unit :=
  set_file filename;;
  _read_data fuel.

End Program.

Definition new_object {F T} : ImfData F T := mkImfData PyNone ∅.

(** ** Instances of the interfaces *)

(** *** Numerals *)

Definition digit_of (c : ascii) : option Z :=
  let n := nat_of_ascii c in
  if ((48 <=? n) && (n <=? 57))%nat then Some (Z.of_nat n - 48)%Z else None.

(** The value of a non-empty string of decimal digits read after the
    digits of [acc]. *)
Fixpoint digits_from (acc : Z) (s : string) : option Z :=
  match s with
  | EmptyString => Some acc
  | String c s' =>
      match digit_of c with
      | Some d => digits_from (10 * acc + d)%Z s'
      | None => None
      end
  end.

Definition digits (s : string) : option Z :=
  match s with
  | EmptyString => None
  | _ => digits_from 0 s
  end.

(** A plain decimal numeral, [[+-]digits[.digits]], as mantissa and
    exponent of ten. *)
Fixpoint split_dot (int : list ascii) (s : string) : string * option string :=
  match s with
  | EmptyString => (string_of_list_ascii (rev int), None)
  | String c s' =>
      if Ascii.eqb c "."%char then (string_of_list_ascii (rev int), Some s')
      else split_dot (c :: int) s'
  end.

Definition unsigned_numeral (s : string) : option (Z * Z) :=
  match split_dot [] s with
  | (i, None) => m ← digits i; Some (m, 0%Z)
  | (i, Some f) =>
      _ ← digits i;
      m ← digits_from 0 (i ++ f);
      Some (m, (- Z.of_nat (String.length f))%Z)
  end.

Definition numeral (s : string) : option (Z * Z) :=
  match s with
  | String "-"%char s' => '(m, e) ← unsigned_numeral s'; Some ((- m)%Z, e)
  | String "+"%char s' => unsigned_numeral s'
  | _ => unsigned_numeral s
  end.

(** *** float64 read as the real numbers

    An idealisation for the examples: no rounding, one zero, no NaN, and
    [float] reads plain decimal numerals only. *)

(** The angle of the point [(x, y)], in (-PI, PI]. *)
Definition Ratan2 (y x : R) : R :=
  if Rlt_dec 0 x then atan (y / x)
  else if Rlt_dec x 0 then
    if Rle_dec 0 y then (atan (y / x) + PI)%R else (atan (y / x) - PI)%R
  else if Rlt_dec 0 y then (PI / 2)%R
  else if Rlt_dec y 0 then (- (PI / 2))%R
  else 0%R.

Definition Rlit (m e : Z) : R := (IZR m * powerRZ 10 e)%R.

#[global] Instance real_float64 : Float64 R := {
  f_lit := Rlit;
  f_pi := PI;
  f_add := Rplus;
  f_mul := Rmult;
  f_div := Rdiv;
  f_powi := powerRZ;
  f_pypow := powerRZ;
  f_sqrt := sqrt;
  f_sin := sin;
  f_arctan2 := Ratan2;
  float_of_str := fun s => '(m, e) ← numeral s; Some (Rlit m e)
}.

(** *** float64 as it is: IEEE 754 binary64

    Addition, multiplication, division and the square root are the
    correctly rounded operations of the standard (Rocq's primitive
    floats); there are two zeros, infinities and NaN. *)

(** The binary64 [m * 2^e], for [0 <= m <= 2^53] and [-1074 <= e <= 971]
    with [m * 2^e < 2^1024]: the integer converts exactly and so does the
    scaling. *)
Definition b64_scale (m e : Z) : float :=
  ldshiftexp (of_uint63 (Uint63.of_Z m)) (Uint63.of_Z (e + 2101)).

(** The binary64 nearest to the rational [n / d], for [0 <= n] and
    [0 < d]; a tie goes to the even significand, and what rounds to 2^1024
    or more is the infinity. *)
Definition b64_round (n d : Z) : float :=
  if (n =? 0)%Z then 0%float
  else
    let scaled e := if (0 <=? e)%Z then (n, d * 2 ^ e)%Z else (n * 2 ^ (- e), d)%Z in
    let e1 := (Z.log2 n - Z.log2 d - 52)%Z in
    let e2 := if ((scaled e1).1 / (scaled e1).2 <? 2 ^ 52)%Z then (e1 - 1)%Z else e1 in
    let e := Z.max e2 (-1074) in
    let '(num, den) := scaled e in
    let q := (num / den)%Z in
    let r := (num mod den)%Z in
    let q' := if (den <? 2 * r)%Z || ((2 * r =? den)%Z && Z.odd q)
              then (q + 1)%Z else q in
    if (971 <? e)%Z || ((e =? 971)%Z && (q' =? 2 ^ 53)%Z) then infinity
    else b64_scale q' e.

(** The binary64 of the decimal [m * 10^e], correctly rounded. *)
Definition b64_decimal (m e : Z) : float :=
  let a := Z.abs m in
  let x := if (0 <=? e)%Z then b64_round (a * 10 ^ e) 1
           else b64_round a (10 ^ (- e)) in
  if (m <? 0)%Z then (- x)%float else x.

Definition b64_of_Z (n : Z) : float := b64_decimal n 0.

(** [np.pi], the binary64 nearest to the number pi. *)
Definition pi64 : float := 0x1.921fb54442d18p+1%float.

Definition lower (c : ascii) : ascii :=
  let n := nat_of_ascii c in
  if ((65 <=? n) && (n <=? 90))%nat then ascii_of_nat (n + 32) else c.

Fixpoint lowercase (s : string) : string :=
  match s with
  | EmptyString => EmptyString
  | String c s' => String (lower c) (lowercase s')
  end.

(** A sign in front of a numeral. *)
Definition signed (s : string) : bool * string :=
  match s with
  | String "-"%char s' => (true, s')
  | String "+"%char s' => (false, s')
  | _ => (false, s)
  end.

(** Digits after a digit, with single underscores between digits: the
    value read so far and the number of digits. *)
Fixpoint digitpart_from (acc : Z) (n : nat) (s : string) : option (Z * nat) :=
  match s with
  | EmptyString => Some (acc, n)
  | String "_"%char (String c s') =>
      d ← digit_of c; digitpart_from (10 * acc + d)%Z (S n) s'
  | String c s' =>
      d ← digit_of c; digitpart_from (10 * acc + d)%Z (S n) s'
  end.

Definition digitpart (s : string) : option (Z * nat) :=
  match s with
  | EmptyString => None
  | String c s' => d ← digit_of c; digitpart_from d 1 s'
  end.

(** A numeral at its first "e" or "E". *)
Fixpoint split_exp (m : list ascii) (s : string) : string * option string :=
  match s with
  | EmptyString => (string_of_list_ascii (rev m), None)
  | String c s' =>
      if Ascii.eqb (lower c) "e"%char then (string_of_list_ascii (rev m), Some s')
      else split_exp (c :: m) s'
  end.

(** [digitpart "." [digitpart]] or ["." digitpart] or [digitpart], as
    mantissa and exponent of ten. *)
Definition mantissa (s : string) : option (Z * Z) :=
  match split_dot [] s with
  | (i, None) | (i, Some EmptyString) => '(v, _) ← digitpart i; Some (v, 0%Z)
  | (EmptyString, Some f) =>
      '(v, n) ← digitpart f; Some (v, (- Z.of_nat n)%Z)
  | (i, Some f) =>
      '(vi, _) ← digitpart i;
      '(vf, n) ← digitpart f;
      Some ((vi * 10 ^ Z.of_nat n + vf)%Z, (- Z.of_nat n)%Z)
  end.

Definition exponent (s : option string) : option Z :=
  match s with
  | None => Some 0%Z
  | Some s =>
      let '(neg, s') := signed s in
      '(v, _) ← digitpart s';
      Some (if neg then (- v)%Z else v)
  end.

(** [float(s)] on binary64: surrounding whitespace is dropped; then a
    sign, and "inf", "infinity" or "nan" in any case, or a decimal
    numeral with an optional exponent, correctly rounded. *)
Definition b64_of_str (s : string) : option float :=
  let '(neg, body) := signed (strip s) in
  let sign x := if neg then (- x)%float else x in
  let name := lowercase body in
  if String.eqb name "inf" || String.eqb name "infinity"
  then Some (sign infinity)
  else if String.eqb name "nan" then Some nan
  else
    let '(ms, es) := split_exp [] body in
    '(m, e) ← mantissa ms;
    e' ← exponent es;
    Some (sign (b64_decimal m (e + e'))).

(** The functions whose values on binary64 the platform decides, not the
    IEEE 754 standard: numpy's [sin], [arctan2] and [power] on an element,
    and the power of Python's own floats. *)
Class platform := {
  np_sin : float -> float;
  np_arctan2 : float -> float -> float;
  np_power : float -> float -> float;
  py_pow : float -> float -> float
}.

(** [np.arctan2] on an element.  A NaN argument gives NaN; with [y] a
    zero the result is fixed (C99, F.9.1.4): the zero [y] itself for [x]
    positive or +0, and pi with the sign of [y] for [x] negative or -0. *)
Definition b64_arctan2 `{platform} (y x : float) : float :=
  if is_nan y || is_nan x then nan
  else if is_zero y then
    if get_sign x then (if get_sign y then (- pi64)%float else pi64)
    else y
  else np_arctan2 y x.

(** float64 on binary64.  The square [a ** 2] of an array is numpy's
    [square], the product of the element with itself; the other powers,
    and the power of a Python float, are the platform's. *)
#[global] Instance binary64 `{platform} : Float64 float := {
  f_lit := b64_decimal;
  f_pi := pi64;
  f_add := PrimFloat.add;
  f_mul := PrimFloat.mul;
  f_div := PrimFloat.div;
  f_powi := fun x n =>
    if (n =? 2)%Z then (x * x)%float else np_power x (b64_of_Z n);
  f_pypow := fun x n => py_pow x (b64_of_Z n);
  f_sqrt := PrimFloat.sqrt;
  f_sin := np_sin;
  f_arctan2 := b64_arctan2;
  float_of_str := b64_of_str
}.

(** *** Naive timestamps *)

Record datetime := mkDatetime {
  year : Z; month : Z; day : Z; hour : Z; minute : Z; second : Z
}.

Definition is_leap (y : Z) : bool :=
  ((y mod 4 =? 0) && (negb (y mod 100 =? 0) || (y mod 400 =? 0)))%Z.

Definition days_in_month (y m : Z) : Z :=
  if (m =? 2)%Z then (if is_leap y then 29 else 28)%Z
  else if ((m =? 4) || (m =? 6) || (m =? 9) || (m =? 11))%Z then 30%Z
  else 31%Z.

(** A field of one or two digits ([four] digits for the year) within
    [lo..hi]. *)
Definition field (four : bool) (lo hi : Z) (s : string) : option Z :=
  let n := String.length s in
  if (if four then n =? 4 else (1 <=? n) && (n <=? 2))%nat then
    z ← digits s;
    if ((lo <=? z) && (z <=? hi))%Z then Some z else None
  else None.

(** [strptime] for the one format the loader uses, on a string whose
    fields are separated by blanks. *)
Definition strptime_ymdhms (s fmt : string) : option datetime :=
  if negb (String.eqb fmt "%Y %m %d %H %M %S") then None
  else
    match split s with
    | [y; m; d; hh; mm; ss] =>
        y ← field true 1 9999 y;
        m ← field false 1 12 m;
        d ← field false 1 (days_in_month y m) d;
        hh ← field false 0 23 hh;
        mm ← field false 0 59 mm;
        ss ← field false 0 59 ss;
        Some (mkDatetime y m d hh mm ss)
    | _ => None
    end.

#[global] Instance naive_datetime : DateTime datetime := {
  strptime := strptime_ymdhms
}.

(** ** The vocabulary of the properties *)

Section Vocabulary.
Context {F T : Type} {NP : Float64 F} {DT : DateTime T}.

(** What a computation leaves alone: it performs no file operation,
    keeps the attribute [file], and writes no key outside [ks]. *)
Definition touches {A} (ks : list string) (m : @M F T A) : Prop :=
  forall w,
    io (m w).2 = io w /\
    file (self (m w).2) = file (self w) /\
    forall k, k ∉ ks -> items (self (m w).2) !! k = items (self w) !! k.

(** What one data line puts in its row. *)
Definition time_cell (l : string) : pyobj T :=
  match strptime (join " " (take 6 (split l))) "%Y %m %d %H %M %S" with
  | Some t => ODatetime t
  | None => OInt 0
  end.

Definition cell (j : nat) (l : string) : F :=
  match drop 7 (split l) !! j with
  | Some p => default zero (float_of_str p)
  | None => zero
  end.

(** A data line the loop body accepts: the time stamp parses, and so do
    the tokens that get paired with a key. *)
Definition row_ok (l : string) : bool :=
  bool_decide (is_Some (strptime (T:=T) (join " " (take 6 (split l)))
                                 "%Y %m %d %H %M %S"))
  && forallb (fun p => bool_decide (is_Some (float_of_str (F:=F) p)))
             (take (length keys) (drop 7 (split l))).

(** Slot [i] of an array after the token paired with it, if any, is
    stored. *)
Definition set_cell (xs : list F) (i : nat) (tok : option string) : list F :=
  match tok ≫= float_of_str with
  | Some x => <[i:=x]> xs
  | None => xs
  end.

(** The dictionary once the lines [done] are parsed and [todo] more rows
    wait: each base column holds the parsed rows, then zeros; no other
    key of the dictionary [d0] the loader started from has changed. *)
Definition table (d0 : gmap string (column F T)) (done : list string)
    (todo : nat) (d : gmap string (column F T)) : Prop :=
  d !! "time"
    = Some (ObjArr (map time_cell done ++ replicate todo (OInt 0))) /\
  (forall j k, keys !! j = Some k ->
     d !! k = Some (FloatArr (map (cell j) done ++ replicate todo zero))) /\
  (forall k, k ∉ "time" :: keys -> d !! k = d0 !! k).

(** What [_read_data] does with the lines [lines] it has read after the
    header: the arrays are created with one slot per line, and the body of
    the data loop runs on each line. *)
Definition load_lines (lines : list string) : @M F T unit :=
  dict_set "time" (np_zeros_object (length lines));;
  for_each keys (fun k => dict_set k (np_zeros (length lines)));;
  for_each (enumerate lines) parse_line.

(** The dictionary after the arrays of zeros are created. *)
Definition zeroed (n : nat) (d0 : gmap string (column F T))
  : gmap string (column F T) :=
  foldl (fun d k => <[k:=np_zeros n]> d) (<["time":=np_zeros_object n]> d0) keys.

(** What the formulas of the four methods compute from their inputs. *)
Definition magnitude (xs ys zs : list F) : list F :=
  map f_sqrt
    (zip_with f_add
       (zip_with f_add (map (fun x => f_powi x 2) xs)
                       (map (fun x => f_powi x 2) ys))
       (map (fun x => f_powi x 2) zs)).

Definition clock_angle (ys zs : list F) : list F := zip_with f_arctan2 ys zs.

Definition epsilon (v b clock : list F) : list F :=
  zip_with f_mul
    (zip_with f_mul (map (f_mul conv) v) (map (fun x => f_powi x 2) b))
    (map (fun x => f_powi x 4)
         (map f_sin (map (fun x => f_div x (f_lit 2 0)) clock))).

(** The value [calc_b] and [calc_v] are about to store, read off the
    dictionary: the magnitude of the vector with components
    [kx], [ky], [kz]. *)
Definition magnitude_value (kx ky kz : string)
    (d : gmap string (column F T)) : exn + column F T :=
  match d !! kx with
  | None => inl (KeyError kx)
  | Some x =>
      match np_map (fun a => f_powi a 2) x with
      | inl e => inl e
      | inr x2 =>
          match d !! ky with
          | None => inl (KeyError ky)
          | Some y =>
              match np_map (fun a => f_powi a 2) y with
              | inl e => inl e
              | inr y2 =>
                  match np_zip f_add x2 y2 with
                  | inl e => inl e
                  | inr s =>
                      match d !! kz with
                      | None => inl (KeyError kz)
                      | Some z =>
                          match np_map (fun a => f_powi a 2) z with
                          | inl e => inl e
                          | inr z2 =>
                              match np_zip f_add s z2 with
                              | inl e => inl e
                              | inr s' => np_map f_sqrt s'
                              end
                          end
                      end
                  end
              end
          end
      end
  end.

(** The value [calc_clock] is about to store. *)
Definition clock_value (d : gmap string (column F T)) : exn + column F T :=
  match d !! "by" with
  | None => inl (KeyError "by")
  | Some y =>
      match d !! "bz" with
      | None => inl (KeyError "bz")
      | Some z => np_zip f_arctan2 y z
      end
  end.

(** Store a computed value under [k], or raise what its computation
    raised. *)
Definition commit (k : string) (r : exn + column F T) : @M F T unit :=
  match r with
  | inl e => raise e
  | inr c => dict_set k c
  end.

(** The formula of [calc_epsilon], after the prerequisites are ensured. *)
Definition epsilon_formula : @M F T unit :=
  v ← dict_get "v";
  cv ← lift (np_map (f_mul conv) v);
  b ← dict_get "b";
  b2 ← lift (np_map (fun x => f_powi x 2) b);
  cvb ← lift (np_zip f_mul cv b2);
  clock ← dict_get "clock";
  half ← lift (np_map (fun x => f_div x (f_lit 2 0)) clock);
  sn ← lift (np_map f_sin half);
  sn4 ← lift (np_map (fun x => f_powi x 4) sn);
  e ← lift (np_zip f_mul cvb sn4);
  dict_set "epsilon" e.

(** [if k not in self: self.calc()] *)
Definition ensure (k : string) (calc : @M F T unit) : @M F T unit :=
  has ← dict_in k;
  if negb has then calc else ret tt.

(** The six vector components are in the dictionary as arrays of floats
    of one length, as the loader leaves them. *)
Definition base_fields (d : gmap string (column F T))
    (bx by_ bz vx vy vz : list F) : Prop :=
  d !! "bx" = Some (FloatArr bx) /\
  d !! "by" = Some (FloatArr by_) /\
  d !! "bz" = Some (FloatArr bz) /\
  d !! "vx" = Some (FloatArr vx) /\
  d !! "vy" = Some (FloatArr vy) /\
  d !! "vz" = Some (FloatArr vz) /\
  length bx = length by_ /\ length by_ = length bz /\
  length bz = length vx /\ length vx = length vy /\ length vy = length vz.

(** The methods a caller may run by hand before [calc_epsilon]. *)
Inductive prereq := Pb | Pv | Pclock.

Definition run_prereq (p : prereq) : @M F T unit :=
  match p with
  | Pb => calc_b
  | Pv => calc_v
  | Pclock => calc_clock
  end.

(** A derived key is absent or holds what its method computes. *)
Definition derived_or_absent (bx by_ bz vx vy vz : list F)
    (d : gmap string (column F T)) : Prop :=
  (d !! "b" = None \/ d !! "b" = Some (FloatArr (magnitude bx by_ bz))) /\
  (d !! "v" = None \/ d !! "v" = Some (FloatArr (magnitude vx vy vz))) /\
  (d !! "clock" = None \/
   d !! "clock" = Some (FloatArr (clock_angle by_ bz))).

(** The dictionary [calc_epsilon] leaves. *)
Definition with_epsilon (bx by_ bz vx vy vz : list F)
    (d : gmap string (column F T)) : gmap string (column F T) :=
  <["epsilon":=FloatArr (epsilon (magnitude vx vy vz) (magnitude bx by_ bz)
                                 (clock_angle by_ bz))]>
    (<["clock":=FloatArr (clock_angle by_ bz)]>
       (<["v":=FloatArr (magnitude vx vy vz)]>
          (<["b":=FloatArr (magnitude bx by_ bz)]> d))).

(** The three methods that store one derived field each, with the key
    they store it under. *)
Definition derived_methods : list (string * @M F T unit) :=
  [("b", calc_b); ("v", calc_v); ("clock", calc_clock)].

End Vocabulary.

(** ** Example files and dictionaries *)

Definition nl : string := String "010"%char EmptyString.

Definition imf_header : list string :=
  ["#COMMENT" ++ nl; "Solar wind, GSM" ++ nl]%string.

Definition imf_sentinel : string := ("  #START  " ++ nl)%string.

(** A full data line, and one that stops after [by]. *)
Definition imf_data : list string :=
  ["1998 01 02 00 30 00 000 1.5 -2.0 3 -400 10 0.5 5.25 100000" ++ nl;
   "1998 01 02 00 31 00 000 0.5 -4" ++ nl]%string.

Definition imf_lines : list string := imf_header ++ imf_sentinel :: imf_data.

Definition headless_lines : list string :=
  ["#COMMENT" ++ nl;
   "1998 01 02 00 30 00 000 1.5 -2.0 3 -400 10 0.5 5.25 100000" ++ nl]%string.

Definition example_fs (name : string) : option (list string) :=
  if String.eqb name "imf.dat" then Some imf_lines
  else if String.eqb name "headless.dat" then Some headless_lines
  else None.

(** A name [open] refuses: "a", the character NUL, "b". *)
Definition nul_name : string :=
  String "a"%char (String "000"%char (String "b"%char EmptyString)).

Definition fresh_world : world R datetime := mkWorld new_object [].

(** A one-row dictionary as the loader leaves it, and the same with a "b"
    put in by the caller. *)
Definition sample_items : gmap string (column R datetime) :=
  list_to_map
    [("time", ObjArr [ODatetime (mkDatetime 1998 1 2 0 30 0)]);
     ("bx", FloatArr [3%R]); ("by", FloatArr [4%R]); ("bz", FloatArr [0%R]);
     ("vx", FloatArr [(-400)%R]); ("vy", FloatArr [0%R]); ("vz", FloatArr [0%R]);
     ("rho", FloatArr [5%R]); ("temp", FloatArr [100000%R])].

Definition sample_world : world R datetime :=
  mkWorld (mkImfData (PyStr "imf.dat") sample_items) [].

Definition override_world : world R datetime :=
  mkWorld (mkImfData (PyStr "imf.dat") (<["b":=FloatArr [7%R]]> sample_items)) [].

(** On binary64: a field due north and a field due south, each with
    [by] the one zero and the other; a field due south as a caller may
    put it in, with [by] the negative zero, and the file with the same
    field, [by] written "-0.0"; and a field of components 3, 4 and 0. *)
Definition compass_items : gmap string (column float datetime) :=
  list_to_map
    [("by", FloatArr [0; -0; 0; -0]%float);
     ("bz", FloatArr [1; 1; -1; -1]%float)].

Definition south_items : gmap string (column float datetime) :=
  list_to_map [("by", FloatArr [(-0)%float]); ("bz", FloatArr [(-1)%float])].

Definition south_data : list string :=
  ["1998 01 02 00 30 00 000 3 -0.0 -1 -400 0 0 5.25 100000" ++ nl]%string.

Definition south_fs (name : string) : option (list string) :=
  if String.eqb name "south.dat" then Some (imf_sentinel :: south_data)
  else None.

Definition pythagoras_items : gmap string (column float datetime) :=
  list_to_map
    [("bx", FloatArr [3%float]); ("by", FloatArr [4%float]);
     ("bz", FloatArr [0%float])].

(** ** The rest of the module *)

(** [s.split(sep)] for a separator of one character: the pieces between
    the occurrences of [sep], empty pieces included; never the empty
    list. *)
Fixpoint split_on (sep : ascii) (s : string) : list string :=
  match s with
  | EmptyString => [EmptyString]
  | String c s' =>
      if Ascii.eqb c sep then EmptyString :: split_on sep s'
      else match split_on sep s' with
           | [] => [String c EmptyString]
           | piece :: pieces => String c piece :: pieces
           end
  end.

(** The script at the end of the module derives the name of the image
    from the name of the data file:
    [name_parts = args.file.split('.')] and
    [savename = '.'.join(name_parts[:-1]+['png'])]. *)
Definition savename (file : string) : string :=
  let name_parts := split_on "."%char file in
  join "." (take (length name_parts - 1) name_parts ++ ["png"]).

(** [format_ax] decides whether an axes is in the bottom row of the
    figure from its geometry (nrows, ncols, iplot):
    [is_bottom = geom[-1] > (geom[0]-1)*geom[1]]. *)
Definition is_bottom (geom : Z * Z * Z) : bool :=
  let '(nrows, ncols, iplot) := geom in
  (iplot >? (nrows - 1) * ncols)%Z.

Section Display.
Context {F T : Type}.

(** [str(v)] for a value that is not itself a [str], as the interpreter
    prints it. *)
Variable str_of : pyval -> string.

(** ['ImfData object of {}'.format(self.file)] *)
Definition __str__ : @M F T string :=
  name ← get_file;
  ret ("ImfData object of "
       ++ match name with
          | PyStr s => s
          | v => str_of v
          end)%string.

Definition __repr__ : @M F T string := __str__.

End Display.

(** The characters of a string are all different from [c]. *)
Definition free_of (c : ascii) (s : string) : bool :=
  forallb (fun a => negb (Ascii.eqb a c)) (list_ascii_of_string s).

Section MoreVocabulary.
Context {F T : Type} {NP : Float64 F}.

(** The value [calc_epsilon] is about to store, read off a dictionary that
    holds the prerequisites. *)
Definition epsilon_value (d : gmap string (column F T)) : exn + column F T :=
  match d !! "v" with
  | None => inl (KeyError "v")
  | Some v =>
      match np_map (f_mul conv) v with
      | inl e => inl e
      | inr cv =>
          match d !! "b" with
          | None => inl (KeyError "b")
          | Some b =>
              match np_map (fun x => f_powi x 2) b with
              | inl e => inl e
              | inr b2 =>
                  match np_zip f_mul cv b2 with
                  | inl e => inl e
                  | inr cvb =>
                      match d !! "clock" with
                      | None => inl (KeyError "clock")
                      | Some clock =>
                          match np_map (fun x => f_div x (f_lit 2 0)) clock with
                          | inl e => inl e
                          | inr half =>
                              match np_map f_sin half with
                              | inl e => inl e
                              | inr sn =>
                                  match np_map (fun x => f_powi x 4) sn with
                                  | inl e => inl e
                                  | inr sn4 => np_zip f_mul cvb sn4
                                  end
                              end
                          end
                      end
                  end
              end
          end
      end
  end.

(** An entry of the dictionary is what it was, but for slot [i] of its
    array. *)
Definition slot_changed (i : nat) (c c' : option (column F T)) : Prop :=
  c' = c \/
  (exists xs x, c = Some (FloatArr xs) /\ c' = Some (FloatArr (<[i:=x]> xs))) \/
  (exists xs v, c = Some (ObjArr xs) /\ c' = Some (ObjArr (<[i:=v]> xs))).

(** Two dictionaries differ in row [i] of their arrays at most. *)
Definition row_changed (i : nat) (d d' : gmap string (column F T)) : Prop :=
  forall k, slot_changed i (d !! k) (d' !! k).

End MoreVocabulary.

(** A file whose second data line is blank, and one whose second data line
    has a token that is no number. *)
Definition blank_line_data : list string :=
  ["1998 01 02 00 30 00 000 1.5 -2.0 3 -400 10 0.5 5.25 100000" ++ nl;
   nl;
   "1998 01 02 00 32 00 000 0.5 -4" ++ nl]%string.

Definition bad_token_data : list string :=
  ["1998 01 02 00 30 00 000 1.5 -2.0 3 -400 10 0.5 5.25 100000" ++ nl;
   "1998 01 02 00 31 00 000 0.5 n/a 3" ++ nl]%string.

Definition broken_fs (name : string) : option (list string) :=
  if String.eqb name "blank.dat"
  then Some (imf_header ++ imf_sentinel :: blank_line_data)%list
  else if String.eqb name "token.dat"
  then Some (imf_header ++ imf_sentinel :: bad_token_data)%list
  else None.

(** A token: a non-empty string without whitespace. *)
Definition is_token (t : string) : bool :=
  negb (String.eqb t EmptyString)
  && forallb (fun a => negb (isspace a)) (list_ascii_of_string t).

(** * Properties *)

Local Open Scope list_scope.

(** ** The string functions and the instances at work *)

Example strip_ex : strip "  #START  " = "#START".
Proof. reflexivity. Qed.

Example split_ex :
  split "1998 01  02 a" = ["1998"; "01"; "02"; "a"].
Proof. reflexivity. Qed.

Example numeral_ex : numeral "-3.25" = Some ((-325)%Z, (-2)%Z).
Proof. reflexivity. Qed.

(** The example file loaded: the second data line stops after [by], so its
    [bz] keeps the zero of [np.zeros]. *)
Example load_ex :
  let w := (__init__ example_fs (PyStr "imf.dat") 2 fresh_world).2 in
  (__init__ example_fs (PyStr "imf.dat") 2 fresh_world).1 = Return tt /\
  io w = [EvOpen "imf.dat"; EvClose "imf.dat"] /\
  items (self w) !! "time"
  = Some (ObjArr [ODatetime (mkDatetime 1998 1 2 0 30 0);
                  ODatetime (mkDatetime 1998 1 2 0 31 0)]) /\
  items (self w) !! "by" = Some (FloatArr [Rlit (-20) (-1); Rlit (-4) 0]) /\
  items (self w) !! "bz" = Some (FloatArr [Rlit 3 0; zero]) /\
  items (self w) !! "b" = None.
Proof. vm_compute. repeat split. Qed.

(** A name that is not a string, and a file that does not exist. *)
Example not_a_string_ex :
  __init__ example_fs (PyInt 5) 2 fresh_world
  = (Raise (TypeError "Input file name must be a string."),
     mkWorld (mkImfData (PyInt 5) ∅) []).
Proof. reflexivity. Qed.

Example no_such_file_ex :
  __init__ example_fs (PyStr "nowhere.dat") 2 fresh_world
  = (Raise OSError,
     mkWorld (mkImfData (PyStr "nowhere.dat") ∅) [EvOpen "nowhere.dat"]).
Proof. reflexivity. Qed.

Example open_error_ex :
  open_error "nowhere.dat" = OSError /\ open_error nul_name = ValueError.
Proof. split; reflexivity. Qed.

(** Decimal numerals on binary64: the nearest float, the sign of a zero
    kept, exponents, and what [float] rejects. *)
Example b64_decimal_ex :
  b64_decimal 1 (-1) = 0x1.999999999999ap-4%float /\
  b64_decimal 1 (-7) = 0x1.ad7f29abcaf48p-24%float /\
  b64_decimal 9007199254740993 0 = 0x1p+53%float /\
  b64_decimal 1 309 = infinity.
Proof. repeat split. Qed.

Example b64_of_str_ex :
  b64_of_str "-0.0" = Some (-0)%float /\
  b64_of_str "5.25" = Some 0x1.5p+2%float /\
  b64_of_str "1e3" = Some 1000%float /\
  b64_of_str "-inf" = Some neg_infinity /\
  b64_of_str "n/a" = None /\
  b64_of_str "1.2.3" = None.
Proof. repeat split. Qed.

Example strptime_ex :
  strptime "1998 01 02 00 30 00" "%Y %m %d %H %M %S"
  = Some (mkDatetime 1998 1 2 0 30 0).
Proof. reflexivity. Qed.

(** ** The monad *)

Section MonadFacts.
Context {F T : Type}.

Lemma bind_Return {A B} (m : @M F T A) (k : A -> @M F T B) w a w' :
  m w = (Return a, w') -> (m ≫= k) w = k a w'.
Proof. intros H. unfold mbind, M_bind, bind. now rewrite H. Qed.

Lemma bind_Raise {A B} (m : @M F T A) (k : A -> @M F T B) w e w' :
  m w = (Raise e, w') -> (m ≫= k) w = (Raise e, w').
Proof. intros H. unfold mbind, M_bind, bind. now rewrite H. Qed.

Lemma bind_Running {A B} (m : @M F T A) (k : A -> @M F T B) w w' :
  m w = (Running, w') -> (m ≫= k) w = (Running, w').
Proof. intros H. unfold mbind, M_bind, bind. now rewrite H. Qed.

Lemma touches_ret {A} ks (a : A) : touches (F:=F) (T:=T) ks (ret a).
Proof. now intros w. Qed.

Lemma touches_raise {A} ks e : touches ks (@raise F T A e).
Proof. now intros w. Qed.

Lemma touches_running {A} ks : touches ks (@running F T A).
Proof. now intros w. Qed.

Lemma touches_lift {A} ks (r : exn + A) :
  touches (F:=F) (T:=T) ks (lift r).
Proof. destruct r; [apply touches_raise | apply touches_ret]. Qed.

Lemma touches_dict_get ks k : touches ks (@dict_get F T k).
Proof. intros w. unfold dict_get. now destruct (items (self w) !! k). Qed.

Lemma touches_dict_in ks k : touches ks (@dict_in F T k).
Proof. now intros w. Qed.

Lemma touches_dict_set ks k c : k ∈ ks -> touches ks (@dict_set F T k c).
Proof.
  intros Hk w. cbn. repeat split.
  intros k' Hk'. apply lookup_insert_ne. intros ->. now apply Hk'.
Qed.

Lemma touches_bind {A B} ks (m : @M F T A) (k : A -> @M F T B) :
  touches ks m -> (forall a, touches ks (k a)) -> touches ks (m ≫= k).
Proof.
  intros Hm Hk w. specialize (Hm w).
  unfold mbind, M_bind, bind.
  destruct (m w) as [[a | e |] w']; cbn in Hm |- *; try exact Hm.
  destruct Hm as (Hio & Hfile & Hit).
  destruct (Hk a w') as (Hio' & Hfile' & Hit').
  split; [congruence |]. split; [congruence |].
  intros k' Hk'. rewrite Hit' by done. now apply Hit.
Qed.

Lemma touches_if {A} ks (b : bool) (m1 m2 : @M F T A) :
  touches ks m1 -> touches ks m2 -> touches ks (if b then m1 else m2).
Proof. now destruct b. Qed.

Lemma touches_mono {A} ks ks' (m : @M F T A) :
  ks ⊆ ks' -> touches ks m -> touches ks' m.
Proof.
  intros Hsub Hm w. destruct (Hm w) as (? & ? & Hit).
  repeat split; [done.. |]. intros k Hk. apply Hit. intros Hin. now apply Hk, Hsub.
Qed.

Lemma touches_for_each {A} ks (l : list A) (body : A -> @M F T unit) :
  (forall x, x ∈ l -> touches ks (body x)) -> touches ks (for_each l body).
Proof.
  induction l as [| x l IH]; intros Hb; cbn.
  - apply touches_ret.
  - apply touches_bind; [apply Hb; left | intros _].
    apply IH. intros y Hy. apply Hb. now right.
Qed.

Context {NP : Float64 F}.

Lemma touches_store ks k i (v : pyobj T) :
  k ∈ ks -> touches ks (store (F:=F) k i v).
Proof.
  intros Hk. unfold store.
  apply touches_bind; [apply touches_dict_get | intros a].
  apply touches_bind; [apply touches_lift | intros a'].
  now apply touches_dict_set.
Qed.
End MonadFacts.

Create HintDb touches.
#[export] Hint Resolve touches_ret touches_raise touches_running touches_lift
  touches_dict_get touches_dict_in touches_if : touches.

(** ** The header loop *)

Section HeaderLoop.
Context {F T : Type}.

Lemma skip_header_stop fuel line f (w : world F T) :
  strip line = "#START" -> skip_header fuel line f w = (Return f, w).
Proof.
  intros H. destruct fuel; cbn; rewrite H; reflexivity.
Qed.

Lemma skip_header_next fuel line f (w : world F T) :
  strip line <> "#START" ->
  skip_header (S fuel) line f w
  = skip_header fuel (readline f).1 (readline f).2 w.
Proof.
  intros H. cbn. apply String.eqb_neq in H. rewrite H. cbn.
  now destruct (readline f).
Qed.

Lemma skip_header_spent line f (w : world F T) :
  strip line <> "#START" -> skip_header 0 line f w = (Running, w).
Proof. intros H. cbn. apply String.eqb_neq in H. now rewrite H. Qed.

(** The loop exits at the first line that strips to the sentinel, with
    the file object standing right after it. *)
Lemma skip_header_found header sent data fuel (w : world F T) :
  Forall (fun l => strip l <> "#START") header ->
  strip sent = "#START" ->
  length header <= fuel ->
  skip_header fuel (readline (header ++ sent :: data)).1
                   (readline (header ++ sent :: data)).2 w
  = (Return data, w).
Proof.
  intros Hh Hs. revert fuel.
  induction Hh as [| h hs Hh _ IH]; intros fuel Hfuel; cbn.
  - now apply skip_header_stop.
  - destruct fuel as [| fuel]; [cbn in Hfuel; lia |].
    rewrite skip_header_next by done.
    apply IH. cbn in Hfuel. lia.
Qed.

(** Without a sentinel the loop is still running whatever the fuel: at
    the end of the file [readline] keeps returning the empty string. *)
Lemma skip_header_absent fuel line f (w : world F T) :
  strip line <> "#START" ->
  Forall (fun l => strip l <> "#START") f ->
  skip_header fuel line f w = (Running, w).
Proof.
  revert line f. induction fuel as [| fuel IH]; intros line f Hl Hf.
  - now apply skip_header_spent.
  - rewrite skip_header_next by done.
    destruct Hf as [| l f Hl' Hf']; cbn.
    + apply IH; [discriminate | constructor].
    + now apply IH.
Qed.

(** The loop raises nothing. *)
Lemma skip_header_never_raises fuel line f (w w' : world F T) e :
  skip_header fuel line f w <> (Raise e, w').
Proof.
  revert line f. induction fuel as [| fuel IH]; intros line f; cbn.
  - now destruct (negb _).
  - destruct (negb _); [| done]. destruct (readline f). apply IH.
Qed.

(** The loop exits nowhere else. *)
Lemma skip_header_inv fuel file data (w w' : world F T) :
  skip_header fuel (readline file).1 (readline file).2 w = (Return data, w') ->
  w' = w /\
  exists header sent,
    file = header ++ sent :: data /\
    Forall (fun l => strip l <> "#START") header /\
    strip sent = "#START".
Proof.
  revert file. induction fuel as [| fuel IH]; intros file H.
  - destruct (decide (strip (readline file).1 = "#START")) as [Hs | Hs].
    + rewrite skip_header_stop in H by done. injection H as <- <-.
      split; [done |]. destruct file as [| l file]; [discriminate Hs |].
      exists [], l. now repeat split.
    + rewrite skip_header_spent in H by done. discriminate.
  - destruct (decide (strip (readline file).1 = "#START")) as [Hs | Hs].
    + rewrite skip_header_stop in H by done. injection H as <- <-.
      split; [done |]. destruct file as [| l file]; [discriminate Hs |].
      exists [], l. now repeat split.
    + rewrite skip_header_next in H by done.
      destruct file as [| l file]; cbn in *.
      * rewrite skip_header_absent in H; [discriminate | discriminate | constructor].
      * destruct (IH file H) as (-> & header & sent & -> & Hh & Hsent).
        split; [done |]. exists (l :: header), sent.
        repeat split; [| done]. now constructor.
Qed.
End HeaderLoop.

(** ** The data lines *)

Section DataLines.
Context {F T : Type} {NP : Float64 F} {DT : DateTime T}.

Lemma store_float f d evs k i p xs x :
  d !! k = Some (FloatArr xs) ->
  i < length xs ->
  float_of_str p = Some x ->
  store k i (OStr p) (mkWorld (mkImfData (F:=F) (T:=T) f d) evs)
  = (Return tt, mkWorld (mkImfData f (<[k:=FloatArr (<[i:=x]> xs)]> d)) evs).
Proof.
  intros Hd Hi Hp. unfold store.
  erewrite bind_Return; [| unfold dict_get; cbn; rewrite Hd; reflexivity].
  cbn. rewrite decide_True by done. rewrite Hp. reflexivity.
Qed.

Lemma store_object f d evs k i v xs :
  d !! k = Some (ObjArr xs) ->
  i < length xs ->
  store k i v (mkWorld (mkImfData (F:=F) (T:=T) f d) evs)
  = (Return tt, mkWorld (mkImfData f (<[k:=ObjArr (<[i:=v]> xs)]> d)) evs).
Proof.
  intros Hd Hi. unfold store.
  erewrite bind_Return; [| unfold dict_get; cbn; rewrite Hd; reflexivity].
  cbn. rewrite decide_True by done. reflexivity.
Qed.

(** The inner loop, [for k, p in zip(keys, tokens): self[k][i]=p], for
    any list of distinct keys. *)
Lemma store_row f evs i ks :
  NoDup ks ->
  forall toks (d : gmap string (column F T)),
    (forall k, k ∈ ks -> exists xs, d !! k = Some (FloatArr xs) /\ i < length xs) ->
    forallb (fun p => bool_decide (is_Some (float_of_str (F:=F) p)))
            (take (length ks) toks) = true ->
    exists d',
      for_each (zip ks toks) (fun kp => store kp.1 i (OStr kp.2))
               (mkWorld (mkImfData f d) evs)
      = (Return tt, mkWorld (mkImfData f d') evs) /\
      (forall k, k ∉ ks -> d' !! k = d !! k) /\
      (forall j k xs, ks !! j = Some k -> d !! k = Some (FloatArr xs) ->
                      d' !! k = Some (FloatArr (set_cell xs i (toks !! j)))).
Proof.
  induction 1 as [| k ks Hk Hnd IH]; intros toks d Hd Htoks.
  - exists d. cbn. split; [done |]. split; [done |]. intros j k xs Hj. discriminate.
  - destruct toks as [| p toks].
    + exists d. cbn. split; [done |]. split; [done |].
      intros j k' xs _ Hd'. now rewrite Hd'.
    + cbn in Htoks. apply andb_true_iff in Htoks as [Hp Htoks].
      apply bool_decide_eq_true in Hp as [x Hp].
      destruct (Hd k ltac:(left)) as (xs & Hxs & Hi).
      destruct (IH toks (<[k:=FloatArr (<[i:=x]> xs)]> d)) as (d' & Hrun & Hout & Hin).
      { intros k' Hk'. rewrite lookup_insert_ne by (intros Heq; subst; contradiction).
        apply Hd. now right. }
      { exact Htoks. }
      exists d'. split; [| split].
      * cbn [for_each zip zip_with fst snd]. erewrite bind_Return; [| apply store_float; eassumption]. exact Hrun.
      * intros k' Hk'. rewrite Hout by (intros ?; apply Hk'; now right).
        apply lookup_insert_ne. intros ->. apply Hk'. left.
      * intros [| j] k' xs' Hj Hd'; cbn in Hj.
        -- injection Hj as <-. rewrite Hout by done.
           rewrite lookup_insert_eq. rewrite Hxs in Hd'. injection Hd' as <-.
           unfold set_cell. cbn. now rewrite Hp.
        -- assert (k' <> k) as Hne.
           { intros ->. apply Hk. eapply list_elem_of_lookup_2, Hj. }
           apply (Hin j); [done |]. now rewrite lookup_insert_ne.
Qed.
End DataLines.

Lemma insert_at_end_of_prefix {A} (l1 l2 : list A) (x y : A) i :
  length l1 = i -> <[i:=x]> (l1 ++ y :: l2) = l1 ++ x :: l2.
Proof.
  intros <-. rewrite insert_app_r_alt by lia.
  now rewrite Nat.sub_diag.
Qed.

Lemma keys_NoDup : NoDup keys.
Proof. compute_done. Qed.

Lemma time_not_key : "time" ∉ keys.
Proof. compute_done. Qed.

Section Table.
Context {F T : Type} {NP : Float64 F} {DT : DateTime T}.

Lemma parse_line_table f evs d0 done todo d l :
  table d0 done (S todo) d ->
  row_ok (F:=F) (T:=T) l = true ->
  exists d',
    parse_line (length done, l) (mkWorld (mkImfData f d) evs)
    = (Return tt, mkWorld (mkImfData f d') evs) /\
    table d0 (done ++ [l]) todo d'.
Proof.
  intros (Ht & Hk & Ho) Hrow.
  apply andb_true_iff in Hrow as [Hst Htoks].
  apply bool_decide_eq_true in Hst as [t Hst].
  set (ts := map time_cell done ++ replicate (S todo) (OInt 0)) in Ht.
  set (d1 := <["time":=ObjArr (<[length done:=ODatetime t]> ts)]> d).
  destruct (store_row f evs (length done) keys keys_NoDup
              (drop 7 (split l)) d1) as (d' & Hrun & Hout & Hin).
  { intros k Hin. apply list_elem_of_lookup_1 in Hin as [j Hj].
    exists (map (cell j) done ++ replicate (S todo) zero). split.
    - unfold d1. rewrite lookup_insert_ne; [now apply Hk |].
      intros <-. apply time_not_key. eapply list_elem_of_lookup_2, Hj.
    - rewrite length_app, length_map. cbn. lia. }
  { exact Htoks. }
  exists d'. split.
  - unfold parse_line. rewrite Hst. cbn [from_option lift].
    erewrite bind_Return; [| reflexivity].
    erewrite bind_Return; [exact Hrun |].
    apply store_object; [exact Ht |].
    unfold ts. rewrite length_app, length_map. cbn. lia.
  - split; [| split].
    + rewrite Hout by apply time_not_key. unfold d1.
      rewrite lookup_insert_eq. do 2 f_equal. unfold ts. cbn.
      rewrite insert_at_end_of_prefix by apply length_map.
      rewrite map_app, <- app_assoc. cbn.
      replace (time_cell l) with (ODatetime (T:=T) t); [done |].
      unfold time_cell. now rewrite Hst.
    + intros j k Hj.
      assert (k <> "time") as Hne.
      { intros ->. apply time_not_key. eapply list_elem_of_lookup_2, Hj. }
      rewrite (Hin j k (map (cell j) done ++ replicate (S todo) zero) Hj).
      2:{ unfold d1. rewrite lookup_insert_ne by done. now apply Hk. }
      do 2 f_equal. rewrite map_app, <- app_assoc. cbn.
      generalize (map (cell j) done), (length_map (cell (F:=F) j) done).
      intros pre Hpre. unfold set_cell, cell.
      destruct (drop 7 (split l) !! j) as [p |]; cbn; [| done].
      destruct (float_of_str p) as [x |]; cbn; [| done].
      now apply insert_at_end_of_prefix.
    + intros k Hk'. rewrite Hout.
      * unfold d1. rewrite lookup_insert_ne; [now apply Ho |].
        intros <-. apply Hk'. left.
      * intros Hin'. apply Hk'. now right.
Qed.

(** [for i, l in enumerate(lines)], from row [length done] on. *)
Lemma parse_lines_table f evs d0 rest :
  forall done d,
    table d0 done (length rest) d ->
    forallb (row_ok (F:=F) (T:=T)) rest = true ->
    exists d',
      for_each (imap (fun i l => (length done + i, l)) rest) parse_line
               (mkWorld (mkImfData f d) evs)
      = (Return tt, mkWorld (mkImfData f d') evs) /\
      table d0 (done ++ rest) 0 d'.
Proof.
  induction rest as [| l rest IH]; intros done d Htab Hok.
  - exists d. rewrite app_nil_r. now split.
  - cbn in Hok. apply andb_true_iff in Hok as [Hl Hok].
    destruct (parse_line_table f evs d0 done (length rest) d l Htab Hl)
      as (d1 & Hrun1 & Htab1).
    destruct (IH (done ++ [l]) d1 Htab1 Hok) as (d' & Hrun & Htab').
    exists d'. split.
    + cbn [imap for_each]. rewrite Nat.add_0_r.
      erewrite bind_Return; [| exact Hrun1].
      rewrite <- Hrun. f_equal. apply imap_ext. intros i x _. cbn.
      rewrite length_app. cbn. f_equal. lia.
    + now rewrite <- app_assoc in Htab'.
Qed.
End Table.

(** ** The loader as a whole *)

Section Loader.
Context {F T : Type} {NP : Float64 F} {DT : DateTime T}.
Variable fs : string -> option (list string).

Lemma zeroed_table n d0 : table d0 [] n (zeroed n d0).
Proof.
  unfold zeroed, keys. cbn [foldl]. split; [| split].
  - now rewrite !lookup_insert_ne, lookup_insert_eq by done.
  - intros j k Hj.
    do 8 (destruct j as [| j];
          [injection Hj as <-;
           now rewrite ?lookup_insert_ne, lookup_insert_eq by done |]).
    discriminate.
  - intros k Hk.
    repeat (rewrite lookup_insert_ne;
            [| intros <-; apply Hk; compute_done]).
    reflexivity.
Qed.

(** A file with a sentinel and data lines the loop body accepts is
    loaded, given fuel for the header: the file is opened and closed,
    and the dictionary holds the table of the data lines. *)
Lemma read_data_loaded name header sent data fuel d0 evs :
  fs name = Some (header ++ sent :: data) ->
  Forall (fun l => strip l <> "#START") header ->
  strip sent = "#START" ->
  length header <= fuel ->
  forallb (row_ok (F:=F) (T:=T)) data = true ->
  exists d',
    _read_data fs fuel (mkWorld (mkImfData (PyStr name) d0) evs)
    = (Return tt,
       mkWorld (mkImfData (PyStr name) d')
               (evs ++ [EvOpen name; EvClose name])) /\
    table d0 data 0 d'.
Proof.
  intros Hfs Hh Hs Hfuel Hok.
  destruct (parse_lines_table (PyStr name)
              (evs ++ [EvOpen name; EvClose name]) d0 data []
              (zeroed (length data) d0)) as (d' & Hrun & Htab).
  { apply zeroed_table. } { exact Hok. }
  exists d'. split; [| exact Htab].
  unfold _read_data.
  erewrite bind_Return; [| reflexivity].
  cbn [type_of pytype_eqb negb self file].
  erewrite bind_Return; [| unfold py_open; cbn; rewrite Hfs; reflexivity].
  pose proof (skip_header_found header sent data fuel
                (mkWorld (mkImfData (F:=F) (T:=T) (PyStr name) d0)
                         (evs ++ [EvOpen name])) Hh Hs Hfuel) as Hskip.
  destruct (readline (header ++ sent :: data)) as [line f].
  cbn [fst snd] in Hskip.
  erewrite bind_Return; [| exact Hskip].
  erewrite bind_Return; [| reflexivity].
  erewrite bind_Return; [| reflexivity].
  erewrite bind_Return; [| reflexivity].
  cbn [self io file items]. rewrite <- app_assoc. cbn [app].
  exact Hrun.
Qed.
End Loader.

Section LoaderEffects.
Context {F T : Type} {NP : Float64 F} {DT : DateTime T}.
Variable fs : string -> option (list string).

Lemma skip_header_world fuel line f (w : world F T) :
  (skip_header fuel line f w).2 = w.
Proof.
  revert line f. induction fuel as [| fuel IH]; intros line f.
  - cbn. now destruct (negb _).
  - cbn. destruct (negb _); [| done]. destruct (readline f). apply IH.
Qed.

Lemma touches_parse_line il :
  touches ("time" :: keys) (parse_line (F:=F) (T:=T) il).
Proof.
  destruct il as [i l]. unfold parse_line.
  apply touches_bind; [apply touches_lift | intros t].
  apply touches_bind; [apply touches_store; left | intros _].
  apply touches_for_each. intros [k p] Hkp.
  apply touches_store. right. now apply elem_of_zip_l in Hkp.
Qed.

(** Creating and filling the arrays writes the base fields only. *)
Lemma touches_fill (lines : list string) :
  touches ("time" :: keys)
    (dict_set (F:=F) (T:=T) "time" (np_zeros_object (length lines));;
     for_each keys (fun k => dict_set k (np_zeros (length lines)));;
     for_each (enumerate lines) parse_line).
Proof.
  apply touches_bind; [apply touches_dict_set; left | intros _].
  apply touches_bind.
  - apply touches_for_each. intros k Hk. apply touches_dict_set. now right.
  - intros _. apply touches_for_each. intros il _. apply touches_parse_line.
Qed.

(** Once the name is a string the first thing the loader does is to open
    that file. *)
Lemma read_data_opens s fuel d0 evs :
  exists evs',
    io (_read_data fs fuel (mkWorld (mkImfData (F:=F) (T:=T) (PyStr s) d0) evs)).2
    = evs ++ EvOpen s :: evs'.
Proof.
  unfold _read_data.
  erewrite bind_Return; [| reflexivity].
  cbn [type_of pytype_eqb negb self file].
  destruct (fs s) as [lines |] eqn:Hfs.
  2:{ exists [].
      erewrite bind_Raise by (unfold py_open; cbn; rewrite Hfs; reflexivity).
      reflexivity. }
  erewrite bind_Return; [| unfold py_open; cbn; rewrite Hfs; reflexivity].
  destruct (readline lines) as [line f].
  set (w1 := mkWorld (mkImfData (PyStr s) d0) (evs ++ [EvOpen s])).
  pose proof (skip_header_world fuel line f w1) as Hw.
  destruct (skip_header fuel line f w1) as [[data | e |] w2] eqn:Hskip;
    cbn in Hw; subst w2.
  - erewrite bind_Return; [| exact Hskip].
    erewrite bind_Return; [| reflexivity].
    exists [EvClose s].
    refine (eq_trans (proj1 (touches_fill data _)) _).
    cbn. now rewrite <- app_assoc.
  - exists []. now erewrite bind_Raise by exact Hskip.
  - exists []. now erewrite bind_Running by exact Hskip.
Qed.

(** With the file open, the loader is the header loop followed by the
    rest of the method. *)
Lemma read_data_after_header name lines fuel d0 evs :
  fs name = Some lines ->
  _read_data fs fuel (mkWorld (mkImfData (F:=F) (T:=T) (PyStr name) d0) evs)
  = (let '(line, f) := readline lines in
     data ← skip_header fuel line f;
     py_close (PyStr name);;
     load_lines data)
      (mkWorld (mkImfData (PyStr name) d0) (evs ++ [EvOpen name])).
Proof.
  intros Hfs. unfold _read_data.
  erewrite bind_Return; [| reflexivity].
  cbn [type_of pytype_eqb negb self file].
  erewrite bind_Return; [| unfold py_open; cbn; rewrite Hfs; reflexivity].
  cbn [self io]. now destruct (readline lines).
Qed.

Lemma close_then_load name (data : list string) d0 evs :
  (py_close (PyStr name);; load_lines data)
    (mkWorld (mkImfData (F:=F) (T:=T) (PyStr name) d0) (evs ++ [EvOpen name]))
  = load_lines data
      (mkWorld (mkImfData (PyStr name) d0)
               (evs ++ [EvOpen name; EvClose name])).
Proof.
  erewrite bind_Return; [| reflexivity].
  cbn [self io]. now rewrite <- app_assoc.
Qed.
End LoaderEffects.

(** ** The claims about the loader *)

Section LoaderClaims.
Context {F T : Type} {NP : Float64 F} {DT : DateTime T}.
Variable fs : string -> option (list string).

(** C2 (as the code has it): on a file none of whose lines strips to
    "#START" the loader opens the file and then never leaves the header
    loop: whatever the fuel, it is still running, with nothing stored.  It
    raises no error, malformed-file or other. *)
Theorem read_data_without_sentinel_hangs name lines d0 evs fuel :
  fs name = Some lines ->
  Forall (fun l => strip l <> "#START") lines ->
  _read_data fs fuel (mkWorld (mkImfData (F:=F) (T:=T) (PyStr name) d0) evs)
  = (Running, mkWorld (mkImfData (PyStr name) d0) (evs ++ [EvOpen name])).
Proof.
  intros Hfs Hl. unfold _read_data.
  erewrite bind_Return; [| reflexivity].
  cbn [type_of pytype_eqb negb self file].
  erewrite bind_Return; [| unfold py_open; cbn; rewrite Hfs; reflexivity].
  destruct Hl as [| l lines Hl Hls]; cbn [readline].
  - erewrite bind_Running; [reflexivity |].
    apply skip_header_absent; [discriminate | constructor].
  - erewrite bind_Running; [reflexivity |].
    now apply skip_header_absent.
Qed.

(** C3 (as the code has it): the check compares the exact type of the
    file name with [str].  A value of any other type, a string of a class
    derived from [str] included, makes the constructor raise the TypeError
    with no file operation performed and the dictionary as it was; for a
    value of type [str] itself the check passes and the next thing that
    happens is the opening of that file. *)
Theorem init_checks_file_name_type (v : pyval) fuel (w : world F T) :
  match v with
  | PyStr s =>
      exists evs', io (__init__ fs v fuel w).2 = io w ++ EvOpen s :: evs'
  | _ =>
      __init__ fs v fuel w
      = (Raise (TypeError "Input file name must be a string."),
         mkWorld (mkImfData v (items (self w))) (io w))
  end.
Proof.
  destruct w as [[f0 d0] evs].
  destruct v; try reflexivity.
  unfold __init__. erewrite bind_Return; [| reflexivity].
  apply read_data_opens.
Qed.


(** C5: the loader recognises the sentinel by what a line is once stripped
    of surrounding whitespace, as "  #START  " is "#START".  On a file
    whose first line that strips to "#START" is [sent], the loader opens
    the file, leaves the header loop at [sent] and closes the file; what it
    does next is to create the arrays with one slot per line after [sent]
    and to run the body of the data loop on each of these lines, in order.
    It leaves the header loop nowhere else: whenever the loader is not
    caught in the header loop, the file has a first line that strips to
    "#START", and the lines after it are the lines the loader treats as
    data lines. *)
Theorem sentinel_is_recognised_by_trimmed_equality :
  strip "  #START  " = "#START" /\
  (forall name header sent data fuel d0 evs,
     fs name = Some (header ++ sent :: data) ->
     Forall (fun l => strip l <> "#START") header ->
     strip sent = "#START" ->
     length header <= fuel ->
     _read_data fs fuel (mkWorld (mkImfData (F:=F) (T:=T) (PyStr name) d0) evs)
     = load_lines data
         (mkWorld (mkImfData (PyStr name) d0)
                  (evs ++ [EvOpen name; EvClose name]))) /\
  (forall name lines fuel d0 evs,
     fs name = Some lines ->
     (_read_data fs fuel
        (mkWorld (mkImfData (F:=F) (T:=T) (PyStr name) d0) evs)).1 <> Running ->
     exists header sent data,
       lines = header ++ sent :: data /\
       Forall (fun l => strip l <> "#START") header /\
       strip sent = "#START" /\
       _read_data fs fuel (mkWorld (mkImfData (PyStr name) d0) evs)
       = load_lines data
           (mkWorld (mkImfData (PyStr name) d0)
                    (evs ++ [EvOpen name; EvClose name]))).
Proof.
  split; [reflexivity |]. split.
  - intros name header sent data fuel d0 evs Hfs Hh Hs Hfuel.
    rewrite (read_data_after_header fs name _ fuel d0 evs Hfs).
    pose proof (skip_header_found header sent data fuel
                  (mkWorld (mkImfData (F:=F) (T:=T) (PyStr name) d0)
                           (evs ++ [EvOpen name])) Hh Hs Hfuel) as Hskip.
    destruct (readline (header ++ sent :: data)) as [line f].
    cbn [fst snd] in Hskip.
    erewrite bind_Return; [| exact Hskip].
    apply close_then_load.
  - intros name lines fuel d0 evs Hfs Hrun.
    rewrite (read_data_after_header fs name _ fuel d0 evs Hfs) in Hrun |- *.
    set (w1 := mkWorld (mkImfData (F:=F) (T:=T) (PyStr name) d0)
                       (evs ++ [EvOpen name])) in *.
    destruct (skip_header fuel (readline lines).1 (readline lines).2 w1)
      as [[data | e |] w2] eqn:Hskip.
    + destruct (skip_header_inv _ _ _ _ _ Hskip)
        as (-> & header & sent & -> & Hh & Hs).
      exists header, sent, data. repeat split; [done.. |].
      destruct (readline (header ++ sent :: data)) as [line f].
      cbn [fst snd] in Hskip.
      erewrite bind_Return; [| exact Hskip].
      apply close_then_load.
    + now apply skip_header_never_raises in Hskip.
    + destruct (readline lines) as [line f]. cbn [fst snd] in Hskip.
      erewrite bind_Running in Hrun by exact Hskip. now cbn in Hrun.
Qed.
End LoaderClaims.

Lemma lookup_map {A B} (f : A -> B) (l : list A) i :
  map f l !! i = f <$> l !! i.
Proof.
  revert i. induction l as [| x l IH]; intros [| i]; cbn; try done; apply IH.
Qed.

Section RowClaims.
Context {F T : Type} {NP : Float64 F} {DT : DateTime T}.
Variable fs : string -> option (list string).

Lemma row_ok_time l :
  row_ok (F:=F) (T:=T) l = true ->
  exists t : T,
    strptime (join " " (take 6 (split l))) "%Y %m %d %H %M %S" = Some t /\
    time_cell l = ODatetime t.
Proof.
  intros H. apply andb_true_iff in H as [H _].
  apply bool_decide_eq_true in H as [t Ht].
  exists t. split; [exact Ht |]. unfold time_cell. now rewrite Ht.
Qed.

Lemma row_ok_cell l j :
  row_ok (F:=F) (T:=T) l = true ->
  j < length keys ->
  match split l !! (7 + j) with
  | Some p => float_of_str p = Some (cell (F:=F) j l)
  | None => cell (F:=F) j l = zero
  end.
Proof.
  intros H Hj. apply andb_true_iff in H as [_ H].
  unfold cell. rewrite lookup_drop.
  destruct (split l !! (7 + j)) as [p |] eqn:Hp; [| done].
  assert (In p (take (length keys) (drop 7 (split l)))) as Hin.
  { apply list_elem_of_In, list_elem_of_lookup. exists j.
    rewrite lookup_take_lt by done. now rewrite lookup_drop. }
  rewrite forallb_forall in H. apply H in Hin.
  apply bool_decide_eq_true in Hin as [x Hx]. now rewrite Hx.
Qed.

End RowClaims.

Lemma read_data_without_sentinel_hangs_witness :
  _read_data example_fs 1000
    (mkWorld (mkImfData (F:=R) (T:=datetime) (PyStr "headless.dat") ∅) [])
  = (Running,
     mkWorld (mkImfData (PyStr "headless.dat") ∅) [EvOpen "headless.dat"]).
Proof.
  apply (read_data_without_sentinel_hangs example_fs "headless.dat"
           headless_lines ∅ [] 1000).
  - reflexivity.
  - repeat constructor; vm_compute; discriminate.
Defined.

(** C3, as the claim has it, fails for a string of a class derived from
    [str]: the value is a string and names a file that is there, and the
    constructor raises the TypeError without opening it. *)
Lemma string_of_a_str_subclass_is_rejected :
  isinstance_str (PyStrSub "S" "imf.dat") = true /\
  example_fs "imf.dat" = Some imf_lines /\
  __init__ example_fs (PyStrSub "S" "imf.dat") 2 fresh_world
  = (Raise (TypeError "Input file name must be a string."),
     mkWorld (mkImfData (PyStrSub "S" "imf.dat") ∅) []).
Proof. repeat split. Qed.


Lemma sentinel_is_recognised_by_trimmed_equality_witness :
  _read_data example_fs 2
    (mkWorld (mkImfData (F:=R) (T:=datetime) (PyStr "imf.dat") ∅) [])
  = load_lines imf_data
      (mkWorld (mkImfData (PyStr "imf.dat") ∅)
               [EvOpen "imf.dat"; EvClose "imf.dat"]).
Proof.
  apply (proj1 (proj2 (sentinel_is_recognised_by_trimmed_equality
                         (F:=R) (T:=datetime) example_fs))
           "imf.dat" imf_header imf_sentinel imf_data 2 ∅ []).
  - reflexivity.
  - repeat constructor; vm_compute; discriminate.
  - reflexivity.
  - cbn. lia.
Defined.


(** ** The derived quantities *)

Lemma broadcast_same_length {A} (f : A -> A -> A) xs ys :
  length xs = length ys -> broadcast f xs ys = Some (zip_with f xs ys).
Proof. intros H. unfold broadcast. now rewrite decide_True. Qed.

Ltac step_get H :=
  erewrite bind_Return;
  [| unfold dict_get; cbn [self items]; rewrite H; reflexivity].

Ltac step_pure := erewrite bind_Return; [| reflexivity].

Ltac step_zip :=
  erewrite bind_Return;
  [| unfold lift, np_zip;
     rewrite broadcast_same_length
       by (rewrite ?length_zip_with, ?length_map; lia);
     reflexivity].

(** Case on the dictionary lookup, or on the numpy call, that comes next
    in a method. *)
Ltac step_read d k :=
  let H := fresh "Hread" in
  destruct (d !! k) eqn:H;
  [ step_get H
  | erewrite bind_Raise
      by (unfold dict_get; cbn [self items]; rewrite H; reflexivity);
    reflexivity ].

Ltac step_lift :=
  match goal with
  | |- context [lift ?r] =>
      let H := fresh "Hlift" in
      destruct r eqn:H;
      [ erewrite bind_Raise by reflexivity; reflexivity
      | erewrite bind_Return by reflexivity ]
  end.

Section Derived.
Context {F T : Type} {NP : Float64 F}.

Lemma length_magnitude xs ys zs :
  length xs = length ys -> length ys = length zs ->
  length (magnitude xs ys zs) = length xs.
Proof.
  intros H1 H2. unfold magnitude.
  rewrite length_map, !length_zip_with, !length_map. lia.
Qed.

Lemma calc_b_ok f (d : gmap string (column F T)) evs bx by_ bz :
  d !! "bx" = Some (FloatArr bx) ->
  d !! "by" = Some (FloatArr by_) ->
  d !! "bz" = Some (FloatArr bz) ->
  length bx = length by_ -> length by_ = length bz ->
  calc_b (mkWorld (mkImfData f d) evs)
  = (Return tt,
     mkWorld (mkImfData f (<["b":=FloatArr (magnitude bx by_ bz)]> d)) evs).
Proof.
  intros Hx Hy Hz L1 L2. unfold calc_b.
  step_get Hx. step_pure. step_get Hy. step_pure. step_zip.
  step_get Hz. step_pure. step_zip. step_pure. reflexivity.
Qed.

Lemma calc_v_ok f (d : gmap string (column F T)) evs vx vy vz :
  d !! "vx" = Some (FloatArr vx) ->
  d !! "vy" = Some (FloatArr vy) ->
  d !! "vz" = Some (FloatArr vz) ->
  length vx = length vy -> length vy = length vz ->
  calc_v (mkWorld (mkImfData f d) evs)
  = (Return tt,
     mkWorld (mkImfData f (<["v":=FloatArr (magnitude vx vy vz)]> d)) evs).
Proof.
  intros Hx Hy Hz L1 L2. unfold calc_v.
  step_get Hx. step_pure. step_get Hy. step_pure. step_zip.
  step_get Hz. step_pure. step_zip. step_pure. reflexivity.
Qed.

Lemma calc_clock_ok f (d : gmap string (column F T)) evs by_ bz :
  d !! "by" = Some (FloatArr by_) ->
  d !! "bz" = Some (FloatArr bz) ->
  length by_ = length bz ->
  calc_clock (mkWorld (mkImfData f d) evs)
  = (Return tt,
     mkWorld (mkImfData f (<["clock":=FloatArr (clock_angle by_ bz)]> d)) evs).
Proof.
  intros Hy Hz L. unfold calc_clock.
  step_get Hy. step_get Hz. step_zip. reflexivity.
Qed.

(** [calc_epsilon] when the three prerequisites are in the dictionary. *)
Lemma calc_epsilon_present f (d : gmap string (column F T)) evs v b clock :
  d !! "b" = Some (FloatArr b) ->
  d !! "v" = Some (FloatArr v) ->
  d !! "clock" = Some (FloatArr clock) ->
  length v = length b -> length b = length clock ->
  calc_epsilon (mkWorld (mkImfData f d) evs)
  = (Return tt,
     mkWorld (mkImfData f (<["epsilon":=FloatArr (epsilon v b clock)]> d)) evs).
Proof.
  intros Hb Hv Hc L1 L2. unfold calc_epsilon.
  erewrite bind_Return;
    [| unfold dict_in; cbn [self items]; rewrite Hb; reflexivity].
  rewrite bool_decide_eq_true_2 by eauto. cbn [negb]. step_pure.
  erewrite bind_Return;
    [| unfold dict_in; cbn [self items]; rewrite Hv; reflexivity].
  rewrite bool_decide_eq_true_2 by eauto. cbn [negb]. step_pure.
  erewrite bind_Return;
    [| unfold dict_in; cbn [self items]; rewrite Hc; reflexivity].
  rewrite bool_decide_eq_true_2 by eauto. cbn [negb]. step_pure.
  step_get Hv. step_pure. step_get Hb. step_pure. step_zip.
  step_get Hc. step_pure. step_pure. step_pure. step_zip. reflexivity.
Qed.
End Derived.

Section Frames.
Context {F T : Type} {NP : Float64 F}.

Lemma calc_b_commit (w : world F T) :
  calc_b w = commit "b" (magnitude_value "bx" "by" "bz" (items (self w))) w.
Proof.
  destruct w as [[f d] evs]. cbn [self items].
  unfold calc_b, magnitude_value.
  step_read d "bx". step_lift. step_read d "by". step_lift. step_lift.
  step_read d "bz". step_lift. step_lift.
  step_lift. reflexivity.
Qed.

Lemma calc_v_commit (w : world F T) :
  calc_v w = commit "v" (magnitude_value "vx" "vy" "vz" (items (self w))) w.
Proof.
  destruct w as [[f d] evs]. cbn [self items].
  unfold calc_v, magnitude_value.
  step_read d "vx". step_lift. step_read d "vy". step_lift. step_lift.
  step_read d "vz". step_lift. step_lift.
  step_lift. reflexivity.
Qed.

Lemma calc_clock_commit (w : world F T) :
  calc_clock w = commit "clock" (clock_value (items (self w))) w.
Proof.
  destruct w as [[f d] evs]. cbn [self items].
  unfold calc_clock, clock_value.
  step_read d "by". step_read d "bz".
  step_lift. reflexivity.
Qed.
End Frames.

Section DerivedFrames.
Context {F T : Type} {NP : Float64 F}.

Lemma touches_commit ks k (r : exn + column F T) :
  k ∈ ks -> touches ks (commit k r).
Proof.
  intros Hk. destruct r; [apply touches_raise | now apply touches_dict_set].
Qed.

Lemma touches_calc_b ks : "b" ∈ ks -> touches ks (calc_b (F:=F) (T:=T)).
Proof.
  intros Hk w. rewrite calc_b_commit. now apply touches_commit.
Qed.

Lemma touches_calc_v ks : "v" ∈ ks -> touches ks (calc_v (F:=F) (T:=T)).
Proof.
  intros Hk w. rewrite calc_v_commit. now apply touches_commit.
Qed.

Lemma touches_calc_clock ks :
  "clock" ∈ ks -> touches ks (calc_clock (F:=F) (T:=T)).
Proof.
  intros Hk w. rewrite calc_clock_commit. now apply touches_commit.
Qed.

Lemma calc_epsilon_unfold :
  calc_epsilon (F:=F) (T:=T)
  = (ensure "b" calc_b;; ensure "v" calc_v;; ensure "clock" calc_clock;;
     epsilon_formula).
Proof. reflexivity. Qed.

Lemma touches_ensure ks k (calc : @M F T unit) :
  touches ks calc -> touches ks (ensure k calc).
Proof.
  intros H. unfold ensure.
  apply touches_bind; [apply touches_dict_in | intros has].
  apply touches_if; [exact H | apply touches_ret].
Qed.

Lemma touches_epsilon_formula ks :
  "epsilon" ∈ ks -> touches (F:=F) (T:=T) ks epsilon_formula.
Proof.
  intros Hk. unfold epsilon_formula.
  repeat (apply touches_bind; [auto with touches | intros ?]).
  now apply touches_dict_set.
Qed.

Lemma touches_calc_epsilon :
  touches ["b"; "v"; "clock"; "epsilon"] (calc_epsilon (F:=F) (T:=T)).
Proof.
  rewrite calc_epsilon_unfold.
  apply touches_bind;
    [apply touches_ensure, touches_calc_b; repeat constructor | intros _].
  apply touches_bind;
    [apply touches_ensure, touches_calc_v; repeat constructor | intros _].
  apply touches_bind;
    [apply touches_ensure, touches_calc_clock; repeat constructor | intros _].
  apply touches_epsilon_formula. repeat constructor.
Qed.

(** A key that is present is not computed again. *)
Lemma ensure_present k calc (w : world F T) :
  is_Some (items (self w) !! k) -> ensure k calc w = (Return tt, w).
Proof.
  intros H. unfold ensure.
  erewrite bind_Return; [| reflexivity].
  now rewrite bool_decide_eq_true_2.
Qed.

Lemma ensure_absent k calc (w : world F T) :
  items (self w) !! k = None -> ensure k calc w = calc w.
Proof.
  intros H. unfold ensure.
  erewrite bind_Return; [| reflexivity].
  rewrite bool_decide_eq_false_2; [reflexivity |].
  rewrite H. now intros [? ?].
Qed.

(** C10: each derived-quantity method performs no file operation, keeps
    the attribute [file], and writes its own keys only, however it ends:
    [calc_b] only "b", [calc_v] only "v", [calc_clock] only "clock",
    [calc_epsilon] at most "b", "v", "clock" and "epsilon".  So the nine
    base fields are what they were. *)
Theorem calc_methods_write_their_own_keys_only :
  touches ["b"] (calc_b (F:=F) (T:=T)) /\
  touches ["v"] (calc_v (F:=F) (T:=T)) /\
  touches ["clock"] (calc_clock (F:=F) (T:=T)) /\
  touches ["b"; "v"; "clock"; "epsilon"] (calc_epsilon (F:=F) (T:=T)) /\
  (forall m : @M F T unit,
     m ∈ [calc_b; calc_v; calc_clock; calc_epsilon] ->
     forall w k,
       k ∈ "time" :: keys ->
       items (self (m w).2) !! k = items (self w) !! k).
Proof.
  split; [apply touches_calc_b; repeat constructor |].
  split; [apply touches_calc_v; repeat constructor |].
  split; [apply touches_calc_clock; repeat constructor |].
  split; [apply touches_calc_epsilon |].
  intros m Hm w k Hk.
  assert (k ∉ ["b"; "v"; "clock"; "epsilon"]) as Hout.
  { intros Hin. revert Hk. clear -Hin.
    rewrite !elem_of_cons in Hin.
    destruct Hin as [-> | [-> | [-> | [-> | Hin]]]];
      [compute_done.. | now apply elem_of_nil in Hin]. }
  assert (touches ["b"; "v"; "clock"; "epsilon"] m) as Hm'.
  { rewrite !elem_of_cons in Hm.
    destruct Hm as [-> | [-> | [-> | [-> | Hm]]]].
    - apply touches_calc_b; repeat constructor.
    - apply touches_calc_v; repeat constructor.
    - apply touches_calc_clock; repeat constructor.
    - apply touches_calc_epsilon.
    - now apply elem_of_nil in Hm. }
  now apply Hm'.
Qed.
End DerivedFrames.

Section Prerequisites.
Context {F T : Type} {NP : Float64 F}.

Variables bx by_ bz vx vy vz : list F.

Lemma base_fields_insert (d : gmap string (column F T)) k c :
  k ∉ ["bx"; "by"; "bz"; "vx"; "vy"; "vz"] ->
  base_fields d bx by_ bz vx vy vz ->
  base_fields (<[k:=c]> d) bx by_ bz vx vy vz.
Proof.
  intros Hk (H1 & H2 & H3 & H4 & H5 & H6 & HL).
  unfold base_fields.
  rewrite !lookup_insert_ne
    by (intros ->; apply Hk; repeat constructor).
  now repeat split.
Qed.

Lemma epsilon_formula_ok f (d : gmap string (column F T)) evs v b clock :
  d !! "b" = Some (FloatArr b) ->
  d !! "v" = Some (FloatArr v) ->
  d !! "clock" = Some (FloatArr clock) ->
  length v = length b -> length b = length clock ->
  epsilon_formula (mkWorld (mkImfData f d) evs)
  = (Return tt,
     mkWorld (mkImfData f (<["epsilon":=FloatArr (epsilon v b clock)]> d)) evs).
Proof.
  intros Hb Hv Hc L1 L2. unfold epsilon_formula.
  step_get Hv. step_pure. step_get Hb. step_pure. step_zip.
  step_get Hc. step_pure. step_pure. step_pure. step_zip. reflexivity.
Qed.

Lemma ensure_b_ok f (d : gmap string (column F T)) evs :
  base_fields d bx by_ bz vx vy vz ->
  d !! "b" = None \/ d !! "b" = Some (FloatArr (magnitude bx by_ bz)) ->
  ensure "b" calc_b (mkWorld (mkImfData f d) evs)
  = (Return tt,
     mkWorld (mkImfData f (<["b":=FloatArr (magnitude bx by_ bz)]> d)) evs).
Proof.
  intros (H1 & H2 & H3 & _ & _ & _ & L1 & L2 & _) [Hb | Hb].
  - rewrite ensure_absent by exact Hb. now apply calc_b_ok.
  - rewrite ensure_present by (cbn; eauto). now rewrite insert_id.
Qed.

Lemma ensure_v_ok f (d : gmap string (column F T)) evs :
  base_fields d bx by_ bz vx vy vz ->
  d !! "v" = None \/ d !! "v" = Some (FloatArr (magnitude vx vy vz)) ->
  ensure "v" calc_v (mkWorld (mkImfData f d) evs)
  = (Return tt,
     mkWorld (mkImfData f (<["v":=FloatArr (magnitude vx vy vz)]> d)) evs).
Proof.
  intros (_ & _ & _ & H1 & H2 & H3 & _ & _ & _ & L1 & L2) [Hv | Hv].
  - rewrite ensure_absent by exact Hv. now apply calc_v_ok.
  - rewrite ensure_present by (cbn; eauto). now rewrite insert_id.
Qed.

Lemma ensure_clock_ok f (d : gmap string (column F T)) evs :
  base_fields d bx by_ bz vx vy vz ->
  d !! "clock" = None \/
  d !! "clock" = Some (FloatArr (clock_angle by_ bz)) ->
  ensure "clock" calc_clock (mkWorld (mkImfData f d) evs)
  = (Return tt,
     mkWorld (mkImfData f (<["clock":=FloatArr (clock_angle by_ bz)]> d)) evs).
Proof.
  intros (_ & H2 & H3 & _ & _ & _ & _ & L2 & _) [Hc | Hc].
  - rewrite ensure_absent by exact Hc. now apply calc_clock_ok.
  - rewrite ensure_present by (cbn; eauto). now rewrite insert_id.
Qed.

(** [calc_epsilon] computes what is missing and adds "epsilon". *)
Lemma calc_epsilon_ok f (d : gmap string (column F T)) evs :
  base_fields d bx by_ bz vx vy vz ->
  derived_or_absent bx by_ bz vx vy vz d ->
  calc_epsilon (mkWorld (mkImfData f d) evs)
  = (Return tt, mkWorld (mkImfData f (with_epsilon bx by_ bz vx vy vz d)) evs).
Proof.
  intros Hbase (Hb & Hv & Hc). rewrite calc_epsilon_unfold.
  erewrite bind_Return; [| now apply ensure_b_ok].
  erewrite bind_Return.
  2:{ apply ensure_v_ok.
      - apply base_fields_insert; [compute_done | exact Hbase].
      - now rewrite lookup_insert_ne. }
  erewrite bind_Return.
  2:{ apply ensure_clock_ok.
      - do 2 (apply base_fields_insert; [compute_done |]). exact Hbase.
      - now rewrite !lookup_insert_ne. }
  destruct Hbase as (_ & _ & _ & _ & _ & _ & L1 & L2 & L3 & L4 & L5).
  apply epsilon_formula_ok.
  - now rewrite !lookup_insert_ne, lookup_insert_eq by done.
  - now rewrite lookup_insert_ne, lookup_insert_eq by done.
  - now rewrite lookup_insert_eq.
  - rewrite !length_magnitude by done. lia.
  - rewrite length_magnitude by done. unfold clock_angle.
    rewrite length_zip_with. lia.
Qed.

(** A prerequisite run by hand succeeds and changes nothing of what
    [calc_epsilon] is going to leave. *)
Lemma run_prereq_ok f (d : gmap string (column F T)) evs p :
  base_fields d bx by_ bz vx vy vz ->
  derived_or_absent bx by_ bz vx vy vz d ->
  exists d',
    run_prereq p (mkWorld (mkImfData f d) evs)
    = (Return tt, mkWorld (mkImfData f d') evs) /\
    base_fields d' bx by_ bz vx vy vz /\
    derived_or_absent bx by_ bz vx vy vz d' /\
    with_epsilon bx by_ bz vx vy vz d' = with_epsilon bx by_ bz vx vy vz d.
Proof.
  intros Hbase (Hb & Hv & Hc).
  pose proof Hbase as (H1 & H2 & H3 & H4 & H5 & H6 & L1 & L2 & L3 & L4 & L5).
  destruct p; cbn [run_prereq]; eexists; (split; [| split; [| split]]).
  - apply (calc_b_ok f d evs bx by_ bz); assumption.
  - apply base_fields_insert; [compute_done | exact Hbase].
  - unfold derived_or_absent.
    now rewrite lookup_insert_eq, !lookup_insert_ne by done; auto.
  - unfold with_epsilon. now rewrite insert_insert_eq.
  - apply (calc_v_ok f d evs vx vy vz); assumption.
  - apply base_fields_insert; [compute_done | exact Hbase].
  - unfold derived_or_absent.
    now rewrite lookup_insert_eq, !lookup_insert_ne by done; auto.
  - unfold with_epsilon.
    rewrite (insert_insert_ne _ "b" "v") by done.
    now rewrite insert_insert_eq.
  - apply (calc_clock_ok f d evs by_ bz); assumption.
  - apply base_fields_insert; [compute_done | exact Hbase].
  - unfold derived_or_absent.
    now rewrite lookup_insert_eq, !lookup_insert_ne by done; auto.
  - unfold with_epsilon.
    rewrite (insert_insert_ne _ "b" "clock") by done.
    rewrite (insert_insert_ne _ "v" "clock") by done.
    now rewrite insert_insert_eq.
Qed.
End Prerequisites.

Section DerivedClaims.
Context {F T : Type} {NP : Float64 F}.

Lemma magnitude_value_insert kx ky kz k c (d : gmap string (column F T)) :
  k <> kx -> k <> ky -> k <> kz ->
  magnitude_value kx ky kz (<[k:=c]> d) = magnitude_value kx ky kz d.
Proof.
  intros Hx Hy Hz. unfold magnitude_value.
  now rewrite !lookup_insert_ne by done.
Qed.

Lemma clock_value_insert k c (d : gmap string (column F T)) :
  k <> "by" -> k <> "bz" -> clock_value (<[k:=c]> d) = clock_value d.
Proof.
  intros Hy Hz. unfold clock_value. now rewrite !lookup_insert_ne by done.
Qed.

(** A method that stores under [k] a value that does not depend on what
    [k] held: what [k] held is replaced, and a second call stores the
    same again. *)
Lemma commit_replaces k (value : gmap string (column F T) -> exn + column F T)
    f d evs c w1 :
  (forall c' d', value (<[k:=c']> d') = value d') ->
  commit k (value d) (mkWorld (mkImfData f d) evs) = (Return tt, w1) ->
  commit k (value (<[k:=c]> d)) (mkWorld (mkImfData f (<[k:=c]> d)) evs)
  = (Return tt, w1) /\
  commit k (value (items (self w1))) w1 = (Return tt, w1).
Proof.
  intros Hval Hrun. rewrite Hval.
  destruct (value d) as [e | x] eqn:Hx; [discriminate |].
  unfold commit, dict_set in Hrun. cbn [self items file io] in Hrun.
  injection Hrun as <-. cbn [self items]. rewrite Hval, Hx.
  unfold commit, dict_set. cbn [self items file io].
  now rewrite !insert_insert_eq.
Qed.

Lemma preserved_by_bind {A B} k (m : @M F T A) (g : A -> @M F T B) :
  (forall w, is_Some (items (self w) !! k) ->
             items (self (m w).2) !! k = items (self w) !! k) ->
  (forall a w, is_Some (items (self w) !! k) ->
               items (self (g a w).2) !! k = items (self w) !! k) ->
  forall w, is_Some (items (self w) !! k) ->
            items (self ((m ≫= g) w).2) !! k = items (self w) !! k.
Proof.
  intros Hm Hg w Hk. specialize (Hm w Hk).
  unfold mbind, M_bind, bind.
  destruct (m w) as [[a | e |] w']; cbn in Hm |- *; try exact Hm.
  rewrite Hg; [exact Hm | now rewrite Hm].
Qed.

Lemma preserved_by_touches {A} ks k (m : @M F T A) :
  touches ks m -> k ∉ ks ->
  forall w, is_Some (items (self w) !! k) ->
            items (self (m w).2) !! k = items (self w) !! k.
Proof. intros Hm Hk w _. now apply Hm. Qed.

Lemma preserved_by_ensure k calc :
  forall w : world F T,
    is_Some (items (self w) !! k) ->
    items (self (ensure k calc w).2) !! k = items (self w) !! k.
Proof. intros w Hk. now rewrite ensure_present. Qed.

(** C1 (as the code has it): [calc_epsilon] leaves a "b", "v" or "clock"
    that is already in the dictionary as it is, however it ends.  Each of
    [calc_b], [calc_v], [calc_clock] computes its field from the base
    fields whatever its key held before: when it returns, an entry the
    caller had put under its key is replaced by the computed one, and a
    second call leaves the dictionary as the first call left it. *)
Theorem derived_field_is_kept_by_calc_epsilon_only :
  (forall (w : world F T) k,
     k ∈ ["b"; "v"; "clock"] ->
     is_Some (items (self w) !! k) ->
     items (self (calc_epsilon w).2) !! k = items (self w) !! k) /\
  (forall k (m : @M F T unit),
     (k, m) ∈ derived_methods ->
     forall f d evs c w1,
       m (mkWorld (mkImfData f d) evs) = (Return tt, w1) ->
       m (mkWorld (mkImfData f (<[k:=c]> d)) evs) = (Return tt, w1) /\
       m w1 = (Return tt, w1)).
Proof.
  split.
  - intros w k Hk. revert w. rewrite calc_epsilon_unfold.
    rewrite !elem_of_cons in Hk.
    destruct Hk as [-> | [-> | [-> | Hk]]]; [| | | now apply elem_of_nil in Hk].
    + apply preserved_by_bind; [apply preserved_by_ensure | intros _].
      apply (preserved_by_touches ["v"; "clock"; "epsilon"]); [| compute_done].
      apply touches_bind;
        [apply touches_ensure, touches_calc_v; repeat constructor | intros _].
      apply touches_bind;
        [apply touches_ensure, touches_calc_clock; repeat constructor | intros _].
      apply touches_epsilon_formula. repeat constructor.
    + apply preserved_by_bind.
      { apply (preserved_by_touches ["b"]); [| compute_done].
        apply touches_ensure, touches_calc_b. repeat constructor. }
      intros _.
      apply preserved_by_bind; [apply preserved_by_ensure | intros _].
      apply (preserved_by_touches ["clock"; "epsilon"]); [| compute_done].
      apply touches_bind;
        [apply touches_ensure, touches_calc_clock; repeat constructor | intros _].
      apply touches_epsilon_formula. repeat constructor.
    + apply preserved_by_bind.
      { apply (preserved_by_touches ["b"]); [| compute_done].
        apply touches_ensure, touches_calc_b. repeat constructor. }
      intros _. apply preserved_by_bind.
      { apply (preserved_by_touches ["v"]); [| compute_done].
        apply touches_ensure, touches_calc_v. repeat constructor. }
      intros _.
      apply preserved_by_bind; [apply preserved_by_ensure | intros _].
      apply (preserved_by_touches ["epsilon"]); [| compute_done].
      apply touches_epsilon_formula. repeat constructor.
  - intros k m Hm f d evs c w1. unfold derived_methods in Hm.
    rewrite !elem_of_cons in Hm.
    destruct Hm as [Hm | [Hm | [Hm | Hm]]];
      [injection Hm as -> ->.. | now apply elem_of_nil in Hm].
    + rewrite !calc_b_commit. cbn [self items].
      apply (commit_replaces "b" (magnitude_value "bx" "by" "bz")).
      intros. now apply magnitude_value_insert.
    + rewrite !calc_v_commit. cbn [self items].
      apply (commit_replaces "v" (magnitude_value "vx" "vy" "vz")).
      intros. now apply magnitude_value_insert.
    + rewrite !calc_clock_commit. cbn [self items].
      apply (commit_replaces "clock" clock_value).
      intros. now apply clock_value_insert.
Qed.

Lemma prereqs_then_epsilon f evs bx by_ bz vx vy vz (order : list prereq) :
  forall d : gmap string (column F T),
    base_fields d bx by_ bz vx vy vz ->
    derived_or_absent bx by_ bz vx vy vz d ->
    (for_each order run_prereq;; calc_epsilon) (mkWorld (mkImfData f d) evs)
    = (Return tt,
       mkWorld (mkImfData f (with_epsilon bx by_ bz vx vy vz d)) evs).
Proof.
  induction order as [| p order IH]; intros d Hbase Hder.
  - erewrite bind_Return; [| reflexivity]. now apply calc_epsilon_ok.
  - destruct (run_prereq_ok bx by_ bz vx vy vz f d evs p Hbase Hder)
      as (d' & Hrun & Hbase' & Hder' & Heq).
    specialize (IH d' Hbase' Hder'). rewrite Heq in IH. rewrite <- IH.
    unfold mbind, M_bind, bind. cbn [for_each].
    unfold mbind, M_bind, bind. now rewrite Hrun.
Qed.

(** C9: on a dictionary with the base fields and none of "b", "v",
    "clock", [calc_epsilon] returns, having computed the three itself, and
    running [calc_b], [calc_v], [calc_clock] by hand first, in any order
    (any sequence of them), ends in the very same object: the same
    "epsilon", and the same everything else. *)
Theorem calc_epsilon_resolves_its_prerequisites
    f (d : gmap string (column F T)) evs bx by_ bz vx vy vz
    (order : list prereq) :
  base_fields d bx by_ bz vx vy vz ->
  d !! "b" = None -> d !! "v" = None -> d !! "clock" = None ->
  calc_epsilon (mkWorld (mkImfData f d) evs)
  = (Return tt,
     mkWorld (mkImfData f (with_epsilon bx by_ bz vx vy vz d)) evs) /\
  (for_each order run_prereq;; calc_epsilon) (mkWorld (mkImfData f d) evs)
  = calc_epsilon (mkWorld (mkImfData f d) evs).
Proof.
  intros Hbase Hb Hv Hc.
  assert (derived_or_absent bx by_ bz vx vy vz d) as Hder.
  { repeat split; now left. }
  split; [now apply calc_epsilon_ok |].
  rewrite (calc_epsilon_ok bx by_ bz vx vy vz) by done.
  now apply prereqs_then_epsilon.
Qed.
End DerivedClaims.

Section Elementwise.
Context {F : Type} {NP : Float64 F}.

Lemma magnitude_lookup (xs ys zs : list F) i x y z :
  xs !! i = Some x -> ys !! i = Some y -> zs !! i = Some z ->
  magnitude xs ys zs !! i
  = Some (f_sqrt (f_add (f_add (f_powi x 2) (f_powi y 2)) (f_powi z 2))).
Proof.
  intros Hx Hy Hz. unfold magnitude.
  rewrite lookup_map, !lookup_zip_with, !lookup_map, Hx, Hy, Hz.
  reflexivity.
Qed.

Lemma clock_angle_lookup (ys zs : list F) i y z :
  ys !! i = Some y -> zs !! i = Some z ->
  clock_angle ys zs !! i = Some (f_arctan2 y z).
Proof.
  intros Hy Hz. unfold clock_angle. now rewrite lookup_zip_with, Hy, Hz.
Qed.

Lemma epsilon_lookup (vs bs cs : list F) i v b c :
  vs !! i = Some v -> bs !! i = Some b -> cs !! i = Some c ->
  epsilon vs bs cs !! i
  = Some (f_mul (f_mul (f_mul conv v) (f_powi b 2))
                (f_powi (f_sin (f_div c (f_lit 2 0))) 4)).
Proof.
  intros Hv Hb Hc. unfold epsilon.
  rewrite !lookup_zip_with, !lookup_map, Hv, Hb, Hc. reflexivity.
Qed.
End Elementwise.

(** ** The formulas on binary64 *)

(** The floats equal to 0 are the two zeros. *)
Lemma b64_eqb_zero (y : float) :
  PrimFloat.eqb y 0 = true -> y = 0%float \/ y = (-0)%float.
Proof.
  rewrite FloatAxioms.eqb_spec.
  rewrite <- (FloatAxioms.SF2Prim_Prim2SF y) at 2 3.
  change (FloatOps.Prim2SF 0) with (SpecFloat.S754_zero false).
  destruct (FloatOps.Prim2SF y) as [[|] | [|] | | [|] m e]; cbn;
    try discriminate; intros _; [right | left]; reflexivity.
Qed.

Section Binary64.
Context {L : platform}.

(** [np.arctan2] due north and due south: with [y] a zero, the angle is
    that zero for [x = 1], and for [x = -1] it is pi with the sign of the
    zero. *)
Lemma b64_arctan2_of_zero (y : float) :
  PrimFloat.eqb y 0 = true ->
  f_arctan2 y 1%float = y /\
  f_arctan2 y (-1)%float = (if get_sign y then (- f_pi)%float else f_pi).
Proof. intros [-> | ->]%b64_eqb_zero; split; reflexivity. Qed.

Lemma b64_arctan2_of_nan (y x : float) :
  f_arctan2 nan x = nan /\ f_arctan2 y nan = nan.
Proof.
  split; [reflexivity |]. cbn. unfold b64_arctan2.
  now destruct (is_nan y).
Qed.

Lemma b64_magnitude_3_4_0 :
  magnitude (F:=float) [3%float] [4%float] [0%float] = [5%float].
Proof. reflexivity. Qed.
End Binary64.


(** C8: [calc_epsilon] stores under "epsilon", for every sample [i],
    C * v[i] * b[i]**2 * sin(clock[i]/2)**4, the float64 operations
    applied from left to right as the code writes them, with
    C = 1000 * 1E-9**2 / (4 * pi * 1E-7); [calc_b] stores
    sqrt(bx**2 + by**2 + bz**2) under "b", [calc_v] stores
    sqrt(vx**2 + vy**2 + vz**2) under "v".  On binary64, bx = 3, by = 4,
    bz = 0 gives b = 5 exactly. *)
Theorem derived_quantities_follow_their_formulas :
  (forall (F T : Type) (NP : Float64 F)
          f (d : gmap string (column F T)) evs v b clock,
     d !! "b" = Some (FloatArr b) ->
     d !! "v" = Some (FloatArr v) ->
     d !! "clock" = Some (FloatArr clock) ->
     length v = length b -> length b = length clock ->
     exists eps,
       calc_epsilon (mkWorld (mkImfData f d) evs)
       = (Return tt,
          mkWorld (mkImfData f (<["epsilon":=FloatArr eps]> d)) evs) /\
       length eps = length v /\
       forall i vi bi ci,
         v !! i = Some vi -> b !! i = Some bi -> clock !! i = Some ci ->
         eps !! i
         = Some (f_mul (f_mul (f_mul conv vi) (f_powi bi 2))
                       (f_powi (f_sin (f_div ci (f_lit 2 0))) 4))) /\
  (forall (F : Type) (NP : Float64 F),
     conv (F:=F)
     = f_div (f_mul (f_lit 1000 0) (f_pypow (f_lit 1 (-9)) 2))
             (f_mul (f_mul (f_lit 4 0) f_pi) (f_lit 1 (-7)))) /\
  (forall (F T : Type) (NP : Float64 F)
          f (d : gmap string (column F T)) evs bx by_ bz,
     d !! "bx" = Some (FloatArr bx) ->
     d !! "by" = Some (FloatArr by_) ->
     d !! "bz" = Some (FloatArr bz) ->
     length bx = length by_ -> length by_ = length bz ->
     exists b,
       calc_b (mkWorld (mkImfData f d) evs)
       = (Return tt, mkWorld (mkImfData f (<["b":=FloatArr b]> d)) evs) /\
       length b = length bx /\
       forall i x y z,
         bx !! i = Some x -> by_ !! i = Some y -> bz !! i = Some z ->
         b !! i
         = Some (f_sqrt (f_add (f_add (f_powi x 2) (f_powi y 2))
                               (f_powi z 2)))) /\
  (forall (F T : Type) (NP : Float64 F)
          f (d : gmap string (column F T)) evs vx vy vz,
     d !! "vx" = Some (FloatArr vx) ->
     d !! "vy" = Some (FloatArr vy) ->
     d !! "vz" = Some (FloatArr vz) ->
     length vx = length vy -> length vy = length vz ->
     exists v,
       calc_v (mkWorld (mkImfData f d) evs)
       = (Return tt, mkWorld (mkImfData f (<["v":=FloatArr v]> d)) evs) /\
       length v = length vx /\
       forall i x y z,
         vx !! i = Some x -> vy !! i = Some y -> vz !! i = Some z ->
         v !! i
         = Some (f_sqrt (f_add (f_add (f_powi x 2) (f_powi y 2))
                               (f_powi z 2)))) /\
  (forall (L : platform) (T : Type) f (d : gmap string (column float T)) evs,
     d !! "bx" = Some (FloatArr [3%float]) ->
     d !! "by" = Some (FloatArr [4%float]) ->
     d !! "bz" = Some (FloatArr [0%float]) ->
     calc_b (mkWorld (mkImfData f d) evs)
     = (Return tt,
        mkWorld (mkImfData f (<["b":=FloatArr [5%float]]> d)) evs)).
Proof.
  split; [| split; [| split; [| split]]].
  - intros F T NP f d evs v b clock Hb Hv Hc L1 L2.
    exists (epsilon v b clock). split; [now apply calc_epsilon_present |].
    split.
    + unfold epsilon. rewrite !length_zip_with, !length_map. lia.
    + intros i vi bi ci Hvi Hbi Hci. now apply epsilon_lookup.
  - reflexivity.
  - intros F T NP f d evs bx by_ bz Hx Hy Hz L1 L2.
    exists (magnitude bx by_ bz). split; [now apply calc_b_ok |]. split.
    + unfold magnitude. rewrite length_map, !length_zip_with, !length_map. lia.
    + intros i x y z Hxi Hyi Hzi. now apply magnitude_lookup.
  - intros F T NP f d evs vx vy vz Hx Hy Hz L1 L2.
    exists (magnitude vx vy vz). split; [now apply calc_v_ok |]. split.
    + unfold magnitude. rewrite length_map, !length_zip_with, !length_map. lia.
    + intros i x y z Hxi Hyi Hzi. now apply magnitude_lookup.
  - intros L T f d evs Hx Hy Hz. rewrite <- b64_magnitude_3_4_0.
    now apply calc_b_ok.
Qed.



Lemma derived_quantities_follow_their_formulas_witness :
  PrimFloat.sqrt (3 * 3 + 4 * 4 + 0 * 0) = 5%float /\
  forall L : platform,
    calc_b (mkWorld (mkImfData (PyStr "imf.dat") pythagoras_items) [])
    = (Return tt,
       mkWorld (mkImfData (PyStr "imf.dat")
                  (<["b":=FloatArr [5%float]]> pythagoras_items)) []).
Proof.
  split; [reflexivity |]. intros L.
  apply (proj2 (proj2 (proj2 (proj2
           derived_quantities_follow_their_formulas))) L datetime).
  - vm_compute. reflexivity.
  - vm_compute. reflexivity.
  - vm_compute. reflexivity.
Defined.

(** ** The magnitude over the real numbers *)

Local Open Scope R_scope.

Lemma real_magnitude_3_4_0 :
  magnitude (F:=R) [3] [4] [0] = [5].
Proof.
  unfold magnitude. cbn [map zip_with]. f_equal.
  cbn [f_sqrt f_add f_powi real_float64].
  replace (powerRZ 3 2 + powerRZ 4 2 + powerRZ 0 2) with (5 * 5)
    by (cbn [powerRZ]; change (Pos.to_nat 2) with 2%nat; lra).
  apply sqrt_square. lra.
Qed.

(** ** The claims at the example dictionaries *)

Lemma calc_b_replaces_an_override :
  items (self override_world) !! "b" = Some (FloatArr [7]) /\
  items (self (calc_b override_world).2) !! "b" = Some (FloatArr [5]) /\
  items (self (calc_b override_world).2) !! "b"
  <> items (self override_world) !! "b".
Proof.
  assert (calc_b override_world
          = (Return tt,
             mkWorld (mkImfData (PyStr "imf.dat")
                        (<["b":=FloatArr [5]]> (<["b":=FloatArr [7]]> sample_items)))
                     [])) as Hrun.
  { rewrite <- real_magnitude_3_4_0. now apply calc_b_ok. }
  rewrite Hrun. cbn [snd self items override_world].
  rewrite !lookup_insert_eq. repeat split.
  intros H. injection H as H. lra.
Qed.

Lemma derived_field_is_kept_by_calc_epsilon_only_witness :
  calc_b override_world
  = (Return tt,
     mkWorld (mkImfData (PyStr "imf.dat")
                (<["b":=FloatArr (magnitude [3] [4] [0])]> sample_items)) []) /\
  is_Some (items (self override_world) !! "b") /\
  items (self (calc_epsilon override_world).2) !! "b" = Some (FloatArr [7]).
Proof.
  destruct (derived_field_is_kept_by_calc_epsilon_only (F:=R) (T:=datetime))
    as [Hkeep Hreplace].
  split; [| split].
  - apply (Hreplace "b" calc_b) with (c := FloatArr [7]).
    + left.
    + vm_compute. reflexivity.
  - vm_compute. eauto.
  - rewrite (Hkeep override_world "b").
    + vm_compute. reflexivity.
    + left.
    + vm_compute. eauto.
Defined.

Lemma calc_epsilon_resolves_its_prerequisites_witness :
  (for_each [Pclock; Pb; Pv] run_prereq;; calc_epsilon) sample_world
  = calc_epsilon sample_world.
Proof.
  apply (calc_epsilon_resolves_its_prerequisites (F:=R) (T:=datetime)
           (PyStr "imf.dat") sample_items [] [3] [4] [0] [-400] [0] [0]
           [Pclock; Pb; Pv]).
  - repeat split; vm_compute; reflexivity.
  - vm_compute. reflexivity.
  - vm_compute. reflexivity.
  - vm_compute. reflexivity.
Defined.

Lemma calc_methods_write_their_own_keys_only_witness :
  items (self (calc_epsilon sample_world).2) !! "bx"
  = items (self sample_world) !! "bx".
Proof.
  apply (proj2 (proj2 (proj2 (proj2
           (calc_methods_write_their_own_keys_only (F:=R) (T:=datetime)))))
           calc_epsilon).
  - repeat constructor.
  - repeat constructor.
Defined.

(** * Further properties of the module *)

Local Close Scope R_scope.

(** ** The name of the image file *)

Lemma split_on_not_nil sep s : split_on sep s <> [].
Proof.
  destruct s as [| c s]; cbn; [done |].
  destruct (Ascii.eqb c sep); [done |]. now destruct (split_on sep s).
Qed.

Lemma split_on_cons sep c s :
  split_on sep (String c s)
  = if Ascii.eqb c sep then EmptyString :: split_on sep s
    else match split_on sep s with
         | [] => [String c EmptyString]
         | piece :: pieces => String c piece :: pieces
         end.
Proof. reflexivity. Qed.

Lemma append_empty (s : string) : (EmptyString ++ s)%string = s.
Proof. reflexivity. Qed.

Lemma append_cons c (a b : string) :
  (String c a ++ b)%string = String c (a ++ b)%string.
Proof. reflexivity. Qed.

Lemma append_assoc (a b c : string) :
  ((a ++ b) ++ c)%string = (a ++ (b ++ c))%string.
Proof.
  induction a as [| x a IH]; [reflexivity |].
  rewrite !append_cons. now rewrite IH.
Qed.

Lemma append_empty_r (s : string) : (s ++ EmptyString)%string = s.
Proof.
  induction s as [| x s IH]; [reflexivity |].
  rewrite append_cons. now rewrite IH.
Qed.

(** Splitting at a separator splits the two sides. *)
Lemma split_on_app_sep sep a b :
  split_on sep (a ++ String sep b)%string = split_on sep a ++ split_on sep b.
Proof.
  induction a as [| c a IH].
  - rewrite append_empty, split_on_cons, Ascii.eqb_refl. reflexivity.
  - rewrite append_cons, !split_on_cons, IH.
    destruct (Ascii.eqb c sep); [reflexivity |].
    pose proof (split_on_not_nil sep a).
    now destruct (split_on sep a).
Qed.

Lemma split_on_free sep s : free_of sep s = true -> split_on sep s = [s].
Proof.
  unfold free_of. induction s as [| c s IH]; cbn; [done |].
  intros H. apply andb_true_iff in H as [Hc H].
  apply negb_true_iff in Hc. rewrite Hc, IH by done. reflexivity.
Qed.

(** ['.'.join(s.split('.'))] is [s]. *)
Lemma join_split_on sep s :
  join (String sep EmptyString) (split_on sep s) = s.
Proof.
  induction s as [| c s IH]; [reflexivity |].
  rewrite split_on_cons. pose proof (split_on_not_nil sep s) as Hne.
  destruct (Ascii.eqb c sep) eqn:Hc.
  - apply Ascii.eqb_eq in Hc as ->.
    destruct (split_on sep s) as [| p ps]; [done |].
    cbn [join]. cbn [join] in IH. now rewrite IH.
  - destruct (split_on sep s) as [| p ps]; [done |].
    destruct ps as [| q qs]; cbn [join] in IH |- *.
    + now rewrite IH.
    + rewrite append_cons. now rewrite IH.
Qed.

Lemma join_snoc sep l x :
  l <> [] -> join sep (l ++ [x]) = (join sep l ++ sep ++ x)%string.
Proof.
  induction l as [| y l IH]; [done |]. intros _.
  destruct l as [| z l]; [reflexivity |].
  change (join sep ((y :: z :: l) ++ [x]))
    with (y ++ sep ++ join sep ((z :: l) ++ [x]))%string.
  rewrite IH by done. cbn [join].
  now rewrite !append_assoc.
Qed.

(** Every name has no dot, or a last dot. *)
Lemma last_dot c s :
  free_of c s = true \/
  exists stem ext,
    s = (stem ++ String c ext)%string /\ free_of c ext = true.
Proof.
  induction s as [| a s IH]; [now left |].
  destruct IH as [Hfree | (stem & ext & -> & Hext)].
  - destruct (Ascii.eqb a c) eqn:Hac.
    + apply Ascii.eqb_eq in Hac as ->. right. now exists EmptyString, s.
    + left. unfold free_of in *. cbn. now rewrite Hac.
  - right. now exists (String a stem), ext.
Qed.

Lemma savename_ext stem ext :
  free_of "." ext = true ->
  savename (stem ++ "." ++ ext)%string = (stem ++ ".png")%string.
Proof.
  intros Hext. unfold savename.
  change ("." ++ ext)%string with (String "."%char ext).
  rewrite split_on_app_sep, (split_on_free _ ext Hext).
  rewrite length_app, Nat.add_sub, take_app_length.
  rewrite join_snoc by apply split_on_not_nil.
  change "."%string with (String "."%char EmptyString).
  now rewrite join_split_on.
Qed.

Lemma savename_no_dot file :
  free_of "." file = true -> savename file = "png"%string.
Proof.
  intros Hfile. unfold savename. now rewrite (split_on_free _ file Hfile).
Qed.

(** X1: the image is named after the data file with what follows its last
    dot replaced by "png"; a name without a dot is dropped altogether and
    the image is named "png". *)
Theorem savename_replaces_the_extension :
  (forall stem ext,
     free_of "." ext = true ->
     savename (stem ++ "." ++ ext)%string = (stem ++ ".png")%string) /\
  (forall file, free_of "." file = true -> savename file = "png"%string).
Proof.
  split.
  - intros stem ext Hext. now apply savename_ext.
  - intros file Hfile. now apply savename_no_dot.
Qed.

Lemma savename_replaces_the_extension_witness :
  savename "data/imf.dat" = "data/imf.png"%string /\
  savename "imf" = "png"%string.
Proof.
  split.
  - apply (proj1 savename_replaces_the_extension "data/imf" "dat").
    reflexivity.
  - apply (proj2 savename_replaces_the_extension "imf"). reflexivity.
Defined.

(** X2: the image gets the very name of the data file exactly when that
    name is "png" or ends in ".png". *)
Theorem savename_is_the_input_only_for_png file :
  savename file = file <->
  file = "png"%string \/ exists stem, file = (stem ++ ".png")%string.
Proof.
  split.
  - intros Heq.
    destruct (last_dot "." file) as [Hfree | (stem & ext & -> & Hext)].
    + left. rewrite <- Heq. now apply savename_no_dot.
    + right. exists stem. rewrite <- Heq at 1.
      now apply (savename_ext stem ext).
  - intros [-> | [stem ->]]; [reflexivity |].
    now apply (savename_ext stem "png").
Qed.

Lemma savename_is_the_input_only_for_png_witness :
  savename "quicklook.png" = "quicklook.png"%string.
Proof.
  apply (proj2 (savename_is_the_input_only_for_png "quicklook.png")).
  right. now exists "quicklook"%string.
Defined.

(** ** The bottom row of a figure *)

(** X3: for a plot of a grid of [nrows] by [ncols] axes, numbered from 1
    row by row, the test of [format_ax] holds exactly for the plots of the
    last row. *)
Theorem is_bottom_is_the_last_row nrows ncols iplot :
  (0 < ncols)%Z ->
  (1 <= iplot <= nrows * ncols)%Z ->
  is_bottom (nrows, ncols, iplot) = true <->
  ((iplot - 1) / ncols = nrows - 1)%Z.
Proof.
  intros Hc Hi. unfold is_bottom. rewrite Z.gtb_lt.
  pose proof (Z.div_mod (iplot - 1) ncols ltac:(lia)) as Hdm.
  pose proof (Z.mod_pos_bound (iplot - 1) ncols Hc) as Hm.
  split; intros H; nia.
Qed.

Lemma is_bottom_is_the_last_row_witness :
  is_bottom (4, 1, 4)%Z = true <-> ((4 - 1) / 1 = 4 - 1)%Z.
Proof.
  apply (is_bottom_is_the_last_row 4 1 4); lia.
Defined.

(** ** Data lines the loader rejects *)

Section RejectedLines.
Context {F T : Type} {NP : Float64 F} {DT : DateTime T}.
Variable fs : string -> option (list string).

Lemma for_each_app {A} (l1 l2 : list A) (body : A -> @M F T unit) w w1 :
  for_each l1 body w = (Return tt, w1) ->
  for_each (l1 ++ l2) body w = for_each l2 body w1.
Proof.
  revert w. induction l1 as [| x l1 IH]; intros w H.
  - cbn in H. now injection H as <-.
  - cbn [app for_each] in H |- *. unfold mbind, M_bind, bind in H |- *.
    destruct (body x w) as [[[] | e |] w']; try discriminate.
    now apply IH.
Qed.

Lemma slot_changed_refl i (c : option (column F T)) : slot_changed i c c.
Proof. now left. Qed.

Lemma slot_changed_trans i (c1 c2 c3 : option (column F T)) :
  slot_changed i c1 c2 -> slot_changed i c2 c3 -> slot_changed i c1 c3.
Proof.
  intros [-> | [(xs & x & -> & ->) | (xs & v & -> & ->)]] H; [exact H | |].
  - destruct H as [-> | [(ys & y & Hy & ->) | (ys & y & Hy & _)]].
    + right. left. eauto.
    + injection Hy as <-. right. left. exists xs, y.
      now rewrite list_insert_insert_eq.
    + discriminate.
  - destruct H as [-> | [(ys & y & Hy & _) | (ys & y & Hy & ->)]].
    + right. right. eauto.
    + discriminate.
    + injection Hy as <-. right. right. exists xs, y.
      now rewrite list_insert_insert_eq.
Qed.

Lemma row_changed_refl i (d : gmap string (column F T)) : row_changed i d d.
Proof. intros k. apply slot_changed_refl. Qed.

Lemma row_changed_trans i (d1 d2 d3 : gmap string (column F T)) :
  row_changed i d1 d2 -> row_changed i d2 d3 -> row_changed i d1 d3.
Proof. intros H1 H2 k. eapply slot_changed_trans; [apply H1 | apply H2]. Qed.

Lemma row_changed_float i k xs x (d : gmap string (column F T)) :
  d !! k = Some (FloatArr xs) ->
  row_changed i d (<[k:=FloatArr (<[i:=x]> xs)]> d).
Proof.
  intros Hk k'. destruct (decide (k = k')) as [<- | Hne].
  - rewrite lookup_insert_eq, Hk. right. left. eauto.
  - rewrite lookup_insert_ne by done. apply slot_changed_refl.
Qed.

Lemma row_changed_object i k xs v (d : gmap string (column F T)) :
  d !! k = Some (ObjArr xs) ->
  row_changed i d (<[k:=ObjArr (<[i:=v]> xs)]> d).
Proof.
  intros Hk k'. destruct (decide (k = k')) as [<- | Hne].
  - rewrite lookup_insert_eq, Hk. right. right. eauto.
  - rewrite lookup_insert_ne by done. apply slot_changed_refl.
Qed.

Lemma store_float_fails f d evs k i p xs :
  d !! k = Some (FloatArr xs) ->
  i < length xs ->
  float_of_str p = None ->
  store k i (OStr p) (mkWorld (mkImfData (F:=F) (T:=T) f d) evs)
  = (Raise ValueError, mkWorld (mkImfData f d) evs).
Proof.
  intros Hd Hi Hp. unfold store.
  erewrite bind_Return; [| unfold dict_get; cbn; rewrite Hd; reflexivity].
  cbn. rewrite decide_True by done. rewrite Hp. reflexivity.
Qed.

(** The inner loop stops with the ValueError at the first token that is
    no number, having changed row [i] only. *)
Lemma store_row_fails f evs i ks :
  NoDup ks ->
  forall toks (d : gmap string (column F T)),
    (forall k, k ∈ ks -> exists xs, d !! k = Some (FloatArr xs) /\ i < length xs) ->
    forallb (fun p => bool_decide (is_Some (float_of_str (F:=F) p)))
            (take (length ks) toks) = false ->
    exists d',
      for_each (zip ks toks) (fun kp => store kp.1 i (OStr kp.2))
               (mkWorld (mkImfData f d) evs)
      = (Raise ValueError, mkWorld (mkImfData f d') evs) /\
      row_changed i d d'.
Proof.
  induction 1 as [| k ks Hk Hnd IH]; intros toks d Hd Htoks; [discriminate |].
  destruct toks as [| p toks]; [discriminate |].
  cbn in Htoks. destruct (Hd k ltac:(left)) as (xs & Hxs & Hi).
  destruct (float_of_str p) as [x |] eqn:Hp.
  - rewrite bool_decide_eq_true_2 in Htoks by eauto. cbn in Htoks.
    destruct (IH toks (<[k:=FloatArr (<[i:=x]> xs)]> d)) as (d' & Hrun & Hrow).
    { intros k' Hk'. rewrite lookup_insert_ne by (intros Heq; subst; contradiction).
      apply Hd. now right. }
    { exact Htoks. }
    exists d'. split.
    + cbn [for_each zip zip_with fst snd].
      erewrite bind_Return; [| apply store_float; eassumption]. exact Hrun.
    + eapply row_changed_trans; [| exact Hrow]. now apply row_changed_float.
  - exists d. split; [| apply row_changed_refl].
    cbn [for_each zip zip_with fst snd].
    erewrite bind_Raise by (apply (store_float_fails f d evs k i p xs); assumption).
    reflexivity.
Qed.

(** The loop body on a line it rejects. *)
Lemma parse_line_rejected f evs d0 done todo d l :
  table d0 done (S todo) d ->
  row_ok (F:=F) (T:=T) l = false ->
  exists d',
    parse_line (length done, l) (mkWorld (mkImfData f d) evs)
    = (Raise ValueError, mkWorld (mkImfData f d') evs) /\
    row_changed (length done) d d'.
Proof.
  intros (Ht & Hk & Ho) Hrow. unfold row_ok in Hrow.
  unfold parse_line.
  destruct (strptime (join " " (take 6 (split l))) "%Y %m %d %H %M %S")
    as [t |] eqn:Hst.
  - rewrite bool_decide_eq_true_2 in Hrow by eauto. cbn [andb] in Hrow.
    set (ts := map time_cell done ++ replicate (S todo) (OInt 0)) in Ht.
    set (d1 := <["time":=ObjArr (<[length done:=ODatetime t]> ts)]> d).
    destruct (store_row_fails f evs (length done) keys keys_NoDup
                (drop 7 (split l)) d1) as (d' & Hrun & Hrows).
    { intros k Hin. apply list_elem_of_lookup_1 in Hin as [j Hj].
      exists (map (cell j) done ++ replicate (S todo) zero). split.
      - unfold d1. rewrite lookup_insert_ne; [now apply Hk |].
        intros <-. apply time_not_key. eapply list_elem_of_lookup_2, Hj.
      - rewrite length_app, length_map. cbn. lia. }
    { exact Hrow. }
    exists d'. split.
    + cbn [from_option lift]. erewrite bind_Return; [| reflexivity].
      erewrite bind_Return; [exact Hrun |].
      apply store_object; [exact Ht |].
      unfold ts. rewrite length_app, length_map. cbn. lia.
    + eapply row_changed_trans; [| exact Hrows].
      now apply row_changed_object.
  - exists d. split; [| apply row_changed_refl].
    cbn [from_option lift]. now erewrite bind_Raise by reflexivity.
Qed.

(** [for i, l in enumerate(lines)] over the first lines of a longer file. *)
Lemma parse_lines_table_more f evs d0 more rest :
  forall done d,
    table d0 done (length rest + more) d ->
    forallb (row_ok (F:=F) (T:=T)) rest = true ->
    exists d',
      for_each (imap (fun i l => (length done + i, l)) rest) parse_line
               (mkWorld (mkImfData f d) evs)
      = (Return tt, mkWorld (mkImfData f d') evs) /\
      table d0 (done ++ rest) more d'.
Proof.
  induction rest as [| l rest IH]; intros done d Htab Hok.
  - exists d. rewrite app_nil_r. now split.
  - cbn in Hok. apply andb_true_iff in Hok as [Hl Hok].
    destruct (parse_line_table f evs d0 done (length rest + more) d l Htab Hl)
      as (d1 & Hrun1 & Htab1).
    destruct (IH (done ++ [l]) d1 Htab1 Hok) as (d' & Hrun & Htab').
    exists d'. split.
    + cbn [imap for_each]. rewrite Nat.add_0_r.
      erewrite bind_Return; [| exact Hrun1].
      rewrite <- Hrun. f_equal. apply imap_ext. intros i x _. cbn.
      rewrite length_app. cbn. f_equal. lia.
    + now rewrite <- app_assoc in Htab'.
Qed.
End RejectedLines.

Section LoaderFailures.
Context {F T : Type} {NP : Float64 F} {DT : DateTime T}.
Variable fs : string -> option (list string).

(** X4: when [open] fails on the name the constructor raises the error of
    [open], which is the ValueError for a name with a NUL character and an
    OSError otherwise; the call of [open] is the only file operation, and
    no field is created. *)
Theorem init_raises_the_error_of_open name fuel (w : world F T) :
  fs name = None ->
  __init__ fs (PyStr name) fuel w
  = (Raise (if has_nul name then ValueError else OSError),
     mkWorld (mkImfData (PyStr name) (items (self w))) (io w ++ [EvOpen name])).
Proof.
  intros Hfs. destruct w as [[f0 d0] evs]. unfold __init__.
  erewrite bind_Return; [| reflexivity]. unfold _read_data.
  erewrite bind_Return; [| reflexivity].
  cbn [type_of pytype_eqb negb self file items io set_file].
  erewrite bind_Raise by (unfold py_open; cbn; rewrite Hfs; reflexivity).
  reflexivity.
Qed.

(** What is left of a table when row [length done] has been tampered
    with: the arrays keep their length and their earlier rows. *)
Lemma table_row_changed d0 done todo (d d' : gmap string (column F T)) :
  table d0 done (S todo) d ->
  row_changed (length done) d d' ->
  (forall k, k ∈ "time" :: keys ->
     exists c, d' !! k = Some c /\ col_len c = length done + S todo) /\
  (forall i l, done !! i = Some l ->
     (exists ts, d' !! "time" = Some (ObjArr ts) /\
                 ts !! i = Some (time_cell l)) /\
     (forall j k, keys !! j = Some k ->
        exists xs, d' !! k = Some (FloatArr xs) /\ xs !! i = Some (cell j l))).
Proof.
  intros (Ht & Hk & _) Hrow.
  assert (exists ts,
            d' !! "time" = Some (ObjArr ts) /\
            length ts = length done + S todo /\
            forall i, i < length done -> ts !! i = time_cell <$> done !! i)
    as (ts & Hts & Lts & Rts).
  { specialize (Hrow "time"). rewrite Ht in Hrow.
    destruct Hrow as [-> | [(xs & x & Hx & _) | (xs & v & Hx & ->)]];
      [| discriminate |].
    - eexists. split; [reflexivity |]. split.
      + rewrite length_app, length_map. cbn. rewrite ?length_replicate. lia.
      + intros i Hi. rewrite lookup_app_l by (rewrite length_map; lia).
        apply lookup_map.
    - injection Hx as <-. eexists. split; [reflexivity |]. split.
      + rewrite length_insert, length_app, length_map. cbn.
        rewrite ?length_replicate. lia.
      + intros i Hi. rewrite list_lookup_insert_ne by lia.
        rewrite lookup_app_l by (rewrite length_map; lia).
        apply lookup_map. }
  assert (forall j k, keys !! j = Some k ->
            exists xs,
              d' !! k = Some (FloatArr xs) /\
              length xs = length done + S todo /\
              forall i, i < length done -> xs !! i = cell j <$> done !! i)
    as Hcols.
  { intros j k Hj. specialize (Hrow k). rewrite (Hk j k Hj) in Hrow.
    destruct Hrow as [-> | [(xs & x & Hx & ->) | (xs & v & Hx & _)]];
      [| | discriminate].
    - eexists. split; [reflexivity |]. split.
      + rewrite length_app, length_map. cbn. rewrite ?length_replicate. lia.
      + intros i Hi. rewrite lookup_app_l by (rewrite length_map; lia).
        apply lookup_map.
    - injection Hx as <-. eexists. split; [reflexivity |]. split.
      + rewrite length_insert, length_app, length_map. cbn.
        rewrite ?length_replicate. lia.
      + intros i Hi. rewrite list_lookup_insert_ne by lia.
        rewrite lookup_app_l by (rewrite length_map; lia).
        apply lookup_map. }
  split.
  - intros k Hin. apply elem_of_cons in Hin as [-> | Hin].
    + exists (ObjArr ts). now split.
    + apply list_elem_of_lookup_1 in Hin as [j Hj].
      destruct (Hcols j k Hj) as (xs & Hxs & Lxs & _).
      exists (FloatArr xs). now split.
  - intros i l Hl. pose proof (lookup_lt_Some _ _ _ Hl) as Hi. split.
    + exists ts. split; [exact Hts |]. now rewrite Rts, Hl.
    + intros j k Hj. destruct (Hcols j k Hj) as (xs & Hxs & _ & Rxs).
      exists xs. split; [exact Hxs |]. now rewrite Rxs, Hl.
Qed.

(** X5: a data line the loop body rejects (its time stamp does not parse,
    or one of the tokens paired with a key is no number) makes the loader
    raise ValueError half way: the file has been closed, every base field
    has been created with one entry per data line of the file, and the rows
    of the lines before the rejected one are filled in. *)
Theorem rejected_data_line_leaves_a_partial_table
    name header sent good bad rest fuel d0 evs :
  fs name = Some (header ++ sent :: good ++ bad :: rest) ->
  Forall (fun l => strip l <> "#START") header ->
  strip sent = "#START" ->
  length header <= fuel ->
  forallb (row_ok (F:=F) (T:=T)) good = true ->
  row_ok (F:=F) (T:=T) bad = false ->
  exists d',
    _read_data fs fuel (mkWorld (mkImfData (PyStr name) d0) evs)
    = (Raise ValueError,
       mkWorld (mkImfData (PyStr name) d')
               (evs ++ [EvOpen name; EvClose name])) /\
    (forall k, k ∈ "time" :: keys ->
       exists c, d' !! k = Some c /\
                 col_len c = length (good ++ bad :: rest)) /\
    (forall i l, good !! i = Some l ->
       (exists ts, d' !! "time" = Some (ObjArr ts) /\
                   ts !! i = Some (time_cell l)) /\
       (forall j k, keys !! j = Some k ->
          exists xs, d' !! k = Some (FloatArr xs) /\
                     xs !! i = Some (cell j l))).
Proof.
  intros Hfs Hh Hs Hfuel Hgood Hbad.
  set (evs' := evs ++ [EvOpen name; EvClose name]).
  set (N := length (good ++ bad :: rest)).
  destruct (parse_lines_table_more (PyStr name) evs' d0 (S (length rest))
              good [] (zeroed N d0)) as (d1 & Hrun1 & Htab1).
  { replace (length good + S (length rest)) with N
      by (unfold N; rewrite length_app; reflexivity).
    apply zeroed_table. }
  { exact Hgood. }
  cbn [app] in Htab1.
  destruct (parse_line_rejected (PyStr name) evs' d0 good (length rest) d1 bad
              Htab1 Hbad) as (d' & Hrun & Hrow).
  exists d'. split.
  - unfold _read_data.
    erewrite bind_Return; [| reflexivity].
    cbn [type_of pytype_eqb negb self file].
    erewrite bind_Return; [| unfold py_open; cbn; rewrite Hfs; reflexivity].
    pose proof (skip_header_found header sent (good ++ bad :: rest) fuel
                  (mkWorld (mkImfData (F:=F) (T:=T) (PyStr name) d0)
                           (evs ++ [EvOpen name])) Hh Hs Hfuel) as Hskip.
    destruct (readline (header ++ sent :: good ++ bad :: rest)) as [line f].
    cbn [fst snd] in Hskip.
    erewrite bind_Return; [| exact Hskip].
    erewrite bind_Return; [| reflexivity].
    erewrite bind_Return; [| reflexivity].
    erewrite bind_Return; [| reflexivity].
    cbn [self io file items]. rewrite <- app_assoc. cbn [app].
    unfold enumerate. rewrite imap_app.
    erewrite for_each_app; [| exact Hrun1].
    cbn [imap for_each]. rewrite Nat.add_0_r.
    erewrite bind_Raise by exact Hrun. reflexivity.
  - destruct (table_row_changed d0 good (length rest) d1 d' Htab1 Hrow)
      as [Hlen Hrows].
    split; [| exact Hrows].
    intros k Hk. destruct (Hlen k Hk) as (c & Hc & Lc).
    exists c. split; [exact Hc |]. unfold N. now rewrite length_app.
Qed.
End LoaderFailures.

Lemma init_raises_the_error_of_open_witness :
  __init__ example_fs (PyStr "nowhere.dat") 2 fresh_world
  = (Raise OSError,
     mkWorld (mkImfData (PyStr "nowhere.dat") ∅) [EvOpen "nowhere.dat"]) /\
  __init__ example_fs (PyStr nul_name) 2 fresh_world
  = (Raise ValueError,
     mkWorld (mkImfData (PyStr nul_name) ∅) [EvOpen nul_name]).
Proof.
  split.
  - apply (init_raises_the_error_of_open example_fs "nowhere.dat" 2
             fresh_world).
    reflexivity.
  - apply (init_raises_the_error_of_open example_fs nul_name 2 fresh_world).
    reflexivity.
Defined.

Lemma rejected_data_line_leaves_a_partial_table_witness :
  (exists d',
     _read_data broken_fs 2
       (mkWorld (mkImfData (F:=R) (T:=datetime) (PyStr "blank.dat") ∅) [])
     = (Raise ValueError,
        mkWorld (mkImfData (PyStr "blank.dat") d')
                [EvOpen "blank.dat"; EvClose "blank.dat"]) /\
     exists c, d' !! "bx" = Some c /\ col_len c = 3) /\
  (exists d',
     _read_data broken_fs 2
       (mkWorld (mkImfData (F:=R) (T:=datetime) (PyStr "token.dat") ∅) [])
     = (Raise ValueError,
        mkWorld (mkImfData (PyStr "token.dat") d')
                [EvOpen "token.dat"; EvClose "token.dat"]) /\
     exists c, d' !! "bx" = Some c /\ col_len c = 2).
Proof.
  split.
  - destruct (rejected_data_line_leaves_a_partial_table (F:=R) (T:=datetime)
                broken_fs "blank.dat" imf_header imf_sentinel
                (take 1 blank_line_data) nl (drop 2 blank_line_data) 2 ∅ [])
      as (d' & Hrun & Hlen & _).
    + reflexivity.
    + repeat constructor; vm_compute; discriminate.
    + reflexivity.
    + cbn. lia.
    + vm_compute. reflexivity.
    + vm_compute. reflexivity.
    + exists d'. split; [exact Hrun |]. apply Hlen. repeat constructor.
  - destruct (rejected_data_line_leaves_a_partial_table (F:=R) (T:=datetime)
                broken_fs "token.dat" imf_header imf_sentinel
                (take 1 bad_token_data)
                ("1998 01 02 00 31 00 000 0.5 n/a 3" ++ nl)%string [] 2 ∅ [])
      as (d' & Hrun & Hlen & _).
    + reflexivity.
    + repeat constructor; vm_compute; discriminate.
    + reflexivity.
    + cbn. lia.
    + vm_compute. reflexivity.
    + vm_compute. reflexivity.
    + exists d'. split; [exact Hrun |]. apply Hlen. repeat constructor.
Defined.

(** ** What the loader writes, and what follows a load *)

Lemma zip_take_r {A B} (ks : list A) (l : list B) :
  zip ks (take (length ks) l) = zip ks l.
Proof.
  revert l. induction ks as [| k ks IH]; intros [| x l]; cbn; try done.
  now rewrite IH.
Qed.

Section AfterLoad.
Context {F T : Type} {NP : Float64 F} {DT : DateTime T}.
Variable fs : string -> option (list string).

Lemma read_data_frame fuel (w : world F T) :
  file (self (_read_data fs fuel w).2) = file (self w) /\
  forall k, k ∉ "time" :: keys ->
    items (self (_read_data fs fuel w).2) !! k = items (self w) !! k.
Proof.
  destruct w as [[f d] evs]. unfold _read_data.
  erewrite bind_Return; [| reflexivity]. cbn [self file].
  destruct f as [| b | z | b | s | c s]; try (cbn; now split).
  cbn [type_of pytype_eqb negb].
  destruct (fs s) as [lines |] eqn:Hfs.
  2:{ erewrite bind_Raise
        by (unfold py_open; cbn; rewrite Hfs; reflexivity).
      now split. }
  erewrite bind_Return; [| unfold py_open; cbn; rewrite Hfs; reflexivity].
  destruct (readline lines) as [line rest].
  set (w1 := mkWorld (mkImfData (PyStr s) d) (evs ++ [EvOpen s])).
  pose proof (skip_header_world fuel line rest w1) as Hw.
  destruct (skip_header fuel line rest w1) as [[data | e |] w2] eqn:Hskip;
    cbn in Hw; subst w2.
  - erewrite bind_Return; [| exact Hskip].
    erewrite bind_Return; [| reflexivity].
    destruct (touches_fill data
                (mkWorld (mkImfData (PyStr s) d)
                         ((evs ++ [EvOpen s]) ++ [EvClose s])))
      as (_ & Hfile & Hitems).
    split; [exact Hfile | exact Hitems].
  - erewrite bind_Raise by exact Hskip. now split.
  - erewrite bind_Running by exact Hskip. now split.
Qed.

(** X6: however it ends, the loader leaves the attribute [file] alone and
    writes no key of the dictionary but the nine base fields: a derived
    field that is in the dictionary when the loader runs is still there,
    unchanged, afterwards. *)
Theorem loader_writes_the_base_fields_only fuel (w : world F T) k :
  k ∉ "time" :: keys ->
  file (self (_read_data fs fuel w).2) = file (self w) /\
  items (self (_read_data fs fuel w).2) !! k = items (self w) !! k.
Proof.
  intros Hk. destruct (read_data_frame fuel w) as [Hfile Hitems].
  split; [exact Hfile | now apply Hitems].
Qed.

(** X7: the loop body looks at the first fifteen tokens of a data line
    only: what follows them is ignored. *)
Theorem tokens_after_the_fifteenth_are_ignored i l l' (w : world F T) :
  take 15 (split l) = take 15 (split l') ->
  parse_line (i, l) w = parse_line (i, l') w.
Proof.
  intros H. unfold parse_line.
  replace (take 6 (split l)) with (take 6 (take 15 (split l)))
    by (rewrite take_take; reflexivity).
  replace (take 6 (split l')) with (take 6 (take 15 (split l')))
    by (rewrite take_take; reflexivity).
  rewrite <- (zip_take_r keys (drop 7 (split l))).
  rewrite <- (zip_take_r keys (drop 7 (split l'))).
  change (length keys) with 8.
  rewrite !take_drop_commute. change (7 + 8) with 15.
  now rewrite H.
Qed.

Lemma length_epsilon (v b clock : list F) :
  length v = length b -> length b = length clock ->
  length (epsilon v b clock) = length v.
Proof.
  intros L1 L2. unfold epsilon.
  rewrite !length_zip_with, !length_map. lia.
Qed.

Lemma table_base_fields d0 data (d : gmap string (column F T)) :
  table d0 data 0 d ->
  base_fields d (map (cell 0) data) (map (cell 1) data) (map (cell 2) data)
                (map (cell 3) data) (map (cell 4) data) (map (cell 5) data).
Proof.
  intros (_ & Hk & _). unfold base_fields.
  rewrite (Hk 0 "bx" eq_refl), (Hk 1 "by" eq_refl), (Hk 2 "bz" eq_refl),
    (Hk 3 "vx" eq_refl), (Hk 4 "vy" eq_refl), (Hk 5 "vz" eq_refl).
  rewrite !app_nil_r, !length_map. now repeat split.
Qed.

(** X8: loading a well-formed file into an object without derived fields
    and calling [calc_epsilon] right away succeeds, and leaves "b", "v",
    "clock" and "epsilon" with one entry per data line. *)
Theorem calc_epsilon_succeeds_after_a_load
    name header sent data fuel (w : world F T) :
  fs name = Some (header ++ sent :: data) ->
  Forall (fun l => strip l <> "#START") header ->
  strip sent = "#START" ->
  length header <= fuel ->
  forallb (row_ok (F:=F) (T:=T)) data = true ->
  items (self w) !! "b" = None ->
  items (self w) !! "v" = None ->
  items (self w) !! "clock" = None ->
  exists w',
    (__init__ fs (PyStr name) fuel;; calc_epsilon) w = (Return tt, w') /\
    forall k, k ∈ ["b"; "v"; "clock"; "epsilon"] ->
      exists xs, items (self w') !! k = Some (FloatArr xs) /\
                 length xs = length data.
Proof.
  intros Hfs Hh Hs Hfuel Hok Hb Hv Hc. destruct w as [[f0 d0] evs].
  cbn [self items] in Hb, Hv, Hc.
  destruct (read_data_loaded fs name header sent data fuel d0 evs
              Hfs Hh Hs Hfuel Hok) as (d' & Hrun & Htab).
  pose proof (table_base_fields d0 data d' Htab) as Hbase.
  destruct Htab as (_ & _ & Hother).
  set (bx := map (cell 0) data) in *. set (by_ := map (cell 1) data) in *.
  set (bz := map (cell 2) data) in *. set (vx := map (cell 3) data) in *.
  set (vy := map (cell 4) data) in *. set (vz := map (cell 5) data) in *.
  assert (derived_or_absent bx by_ bz vx vy vz d') as Hder.
  { repeat split; left; rewrite Hother by compute_done; assumption. }
  eexists. split.
  - erewrite bind_Return.
    2:{ unfold __init__. erewrite bind_Return; [| reflexivity]. exact Hrun. }
    now apply (calc_epsilon_ok bx by_ bz vx vy vz).
  - cbn [self items]. unfold with_epsilon.
    assert (length (magnitude bx by_ bz) = length data) as Lb.
    { rewrite length_magnitude; unfold bx, by_, bz; now rewrite ?length_map. }
    assert (length (magnitude vx vy vz) = length data) as Lv.
    { rewrite length_magnitude; unfold vx, vy, vz; now rewrite ?length_map. }
    assert (length (clock_angle by_ bz) = length data) as Lc.
    { unfold clock_angle, by_, bz. rewrite length_zip_with, !length_map. lia. }
    intros k Hk. rewrite !elem_of_cons in Hk.
    destruct Hk as [-> | [-> | [-> | [-> | Hk]]]];
      [| | | | now apply elem_of_nil in Hk]; eexists; split.
    + now rewrite !lookup_insert_ne, lookup_insert_eq by done.
    + exact Lb.
    + now rewrite !lookup_insert_ne, lookup_insert_eq by done.
    + exact Lv.
    + now rewrite !lookup_insert_ne, lookup_insert_eq by done.
    + exact Lc.
    + now rewrite lookup_insert_eq.
    + rewrite length_epsilon; [exact Lv | lia | lia].
Qed.
End AfterLoad.

(** ** How the derived quantities fail, and repeat *)

Lemma broadcast_mismatch {A} (f : A -> A -> A) xs ys :
  length xs <> length ys -> length xs <> 1 -> length ys <> 1 ->
  broadcast f xs ys = None.
Proof.
  intros H H1 H2. unfold broadcast. rewrite decide_False by done.
  destruct xs as [| x [| x' xs]]; destruct ys as [| y [| y' ys]];
    cbn in *; done.
Qed.

Section DerivedFailures.
Context {F T : Type} {NP : Float64 F}.

Lemma bind_Return_inv {A B} (m : @M F T A) (g : A -> @M F T B) w b w' :
  (m ≫= g) w = (Return b, w') ->
  exists a w1, m w = (Return a, w1) /\ g a w1 = (Return b, w').
Proof.
  unfold mbind, M_bind, bind.
  destruct (m w) as [[a | e |] w1]; try discriminate. eauto.
Qed.

Lemma commit_outcome k (r : exn + column F T) w :
  (commit k r w).1 <> Running /\
  (forall e w', commit k r w = (Raise e, w') -> w' = w) /\
  (forall w', commit k r w = (Return tt, w') -> is_Some (items (self w') !! k)).
Proof.
  destruct r as [e | c]; cbn.
  - repeat split; [discriminate | | discriminate].
    intros e' w' H. now injection H as _ <-.
  - repeat split; [discriminate | discriminate |].
    intros w' H. injection H as <-. cbn. rewrite lookup_insert_eq. eauto.
Qed.

Lemma derived_method_commits k (m : @M F T unit) :
  (k, m) ∈ derived_methods ->
  exists value, forall w, m w = commit k (value (items (self w))) w.
Proof.
  intros Hm. unfold derived_methods in Hm. rewrite !elem_of_cons in Hm.
  destruct Hm as [Hm | [Hm | [Hm | Hm]]];
    [injection Hm as -> ->.. | now apply elem_of_nil in Hm].
  - exists (magnitude_value "bx" "by" "bz"). apply calc_b_commit.
  - exists (magnitude_value "vx" "vy" "vz"). apply calc_v_commit.
  - exists clock_value. apply calc_clock_commit.
Qed.

(** X9: [calc_b], [calc_v] and [calc_clock] either return or raise, and
    when one raises (a missing key, arrays that do not fit) the object is
    exactly as it was. *)
Theorem derived_method_that_raises_changes_nothing k (m : @M F T unit) w :
  (k, m) ∈ derived_methods ->
  (m w).1 <> Running /\
  forall e w', m w = (Raise e, w') -> w' = w.
Proof.
  intros Hm. destruct (derived_method_commits k m Hm) as [value Hvalue].
  rewrite Hvalue.
  destruct (commit_outcome k (value (items (self w))) w) as (H1 & H2 & _).
  now split.
Qed.

(** X10: [calc_epsilon] is not all-or-nothing: on a dictionary with the
    magnetic field but no "vx" (and no "b", no "v") it raises the KeyError
    of "vx" after it has stored "b". *)
Theorem calc_epsilon_keeps_b_when_v_fails
    f (d : gmap string (column F T)) evs bx by_ bz :
  d !! "bx" = Some (FloatArr bx) ->
  d !! "by" = Some (FloatArr by_) ->
  d !! "bz" = Some (FloatArr bz) ->
  length bx = length by_ -> length by_ = length bz ->
  d !! "b" = None -> d !! "v" = None -> d !! "vx" = None ->
  calc_epsilon (mkWorld (mkImfData f d) evs)
  = (Raise (KeyError "vx"),
     mkWorld (mkImfData f (<["b":=FloatArr (magnitude bx by_ bz)]> d)) evs).
Proof.
  intros Hx Hy Hz L1 L2 Hb Hv Hvx. rewrite calc_epsilon_unfold.
  erewrite bind_Return.
  2:{ rewrite ensure_absent by exact Hb.
      apply (calc_b_ok f d evs bx by_ bz); assumption. }
  erewrite bind_Raise; [reflexivity |].
  rewrite ensure_absent by (cbn; now rewrite lookup_insert_ne).
  unfold calc_v.
  erewrite bind_Raise; [reflexivity |].
  unfold dict_get. cbn [self items]. now rewrite lookup_insert_ne, Hvx.
Qed.

Lemma epsilon_formula_commit (w : world F T) :
  epsilon_formula w = commit "epsilon" (epsilon_value (items (self w))) w.
Proof.
  destruct w as [[f d] evs]. cbn [self items].
  unfold epsilon_formula, epsilon_value.
  step_read d "v". step_lift. step_read d "b". step_lift. step_lift.
  step_read d "clock". step_lift. step_lift. step_lift. step_lift.
  reflexivity.
Qed.

Lemma epsilon_value_insert c (d : gmap string (column F T)) :
  epsilon_value (<["epsilon":=c]> d) = epsilon_value d.
Proof. unfold epsilon_value. now rewrite !lookup_insert_ne by done. Qed.

Lemma ensure_returns_present k (m : @M F T unit) w w' :
  (k, m) ∈ derived_methods ->
  ensure k m w = (Return tt, w') -> is_Some (items (self w') !! k).
Proof.
  intros Hm Hrun. destruct (items (self w) !! k) as [c |] eqn:Hk.
  - rewrite ensure_present in Hrun by (rewrite Hk; eauto).
    injection Hrun as <-. rewrite Hk. eauto.
  - rewrite ensure_absent in Hrun by exact Hk.
    destruct (derived_method_commits k m Hm) as [value Hvalue].
    rewrite Hvalue in Hrun.
    now apply (commit_outcome k (value (items (self w))) w).
Qed.

(** X11: a second [calc_epsilon] changes nothing: once a call has
    returned, calling it again returns and leaves the object as it is. *)
Theorem calc_epsilon_twice_is_calc_epsilon_once (w w1 : world F T) :
  calc_epsilon w = (Return tt, w1) ->
  calc_epsilon w1 = (Return tt, w1).
Proof.
  rewrite calc_epsilon_unfold. intros H.
  apply bind_Return_inv in H as ([] & wb & Hb & H).
  apply bind_Return_inv in H as ([] & wv & Hv & H).
  apply bind_Return_inv in H as ([] & wc & Hc & H).
  assert (touches ["v"] (ensure (F:=F) (T:=T) "v" calc_v)) as Tv
    by (apply touches_ensure, touches_calc_v; repeat constructor).
  assert (touches ["clock"] (ensure (F:=F) (T:=T) "clock" calc_clock)) as Tc
    by (apply touches_ensure, touches_calc_clock; repeat constructor).
  assert (touches (F:=F) (T:=T) ["epsilon"] epsilon_formula) as Te
    by (apply touches_epsilon_formula; repeat constructor).
  pose proof (Tv wb) as (_ & _ & Kv). rewrite Hv in Kv. cbn [snd] in Kv.
  pose proof (Tc wv) as (_ & _ & Kc). rewrite Hc in Kc. cbn [snd] in Kc.
  pose proof (Te wc) as (_ & _ & Ke). rewrite H in Ke. cbn [snd] in Ke.
  assert (is_Some (items (self w1) !! "b")) as Pb.
  { rewrite Ke, Kc, Kv by compute_done.
    eapply ensure_returns_present; [| exact Hb]. repeat constructor. }
  assert (is_Some (items (self w1) !! "v")) as Pv.
  { rewrite Ke, Kc by compute_done.
    eapply ensure_returns_present; [| exact Hv]. repeat constructor. }
  assert (is_Some (items (self w1) !! "clock")) as Pc.
  { rewrite Ke by compute_done.
    eapply ensure_returns_present; [| exact Hc]. repeat constructor. }
  erewrite bind_Return; [| now apply ensure_present].
  erewrite bind_Return; [| now apply ensure_present].
  erewrite bind_Return; [| now apply ensure_present].
  rewrite epsilon_formula_commit in H |- *.
  destruct wc as [[f d] evs]. cbn [self items] in H.
  now apply (commit_replaces "epsilon" epsilon_value f d evs
               (FloatArr []) w1 epsilon_value_insert).
Qed.

(** X12: when "bx" and "by" hold arrays of different lengths, neither of
    length one, [calc_b] raises numpy's ValueError and stores nothing. *)
Theorem calc_b_on_arrays_that_do_not_fit
    f (d : gmap string (column F T)) evs bx by_ :
  d !! "bx" = Some (FloatArr bx) ->
  d !! "by" = Some (FloatArr by_) ->
  length bx <> length by_ -> length bx <> 1 -> length by_ <> 1 ->
  calc_b (mkWorld (mkImfData f d) evs)
  = (Raise ValueError, mkWorld (mkImfData f d) evs).
Proof.
  intros Hx Hy L L1 L2. unfold calc_b.
  step_get Hx. step_pure. step_get Hy. step_pure.
  erewrite bind_Raise; [reflexivity |].
  unfold lift, np_zip.
  rewrite broadcast_mismatch by (rewrite ?length_map; assumption).
  reflexivity.
Qed.
End DerivedFailures.

(** ** The printed form of the object *)

Section Printed.
Context {F T : Type} {NP : Float64 F} {DT : DateTime T}.
Variable fs : string -> option (list string).
Variable str_of : pyval -> string.

(** X13: after a construction from a file name that returned, and after
    any calls of the four calc methods that returned, [str] and [repr]
    of the object are "ImfData object of " followed by that file name. *)
Theorem str_names_the_file_of_the_object
    name fuel (ms : list (@M F T unit)) (w w1 : world F T) :
  Forall (fun m => m ∈ [calc_b; calc_v; calc_clock; calc_epsilon]) ms ->
  (__init__ fs (PyStr name) fuel;; for_each ms (fun m => m)) w
  = (Return tt, w1) ->
  __str__ str_of w1 = (Return ("ImfData object of " ++ name)%string, w1) /\
  __repr__ str_of w1 = (Return ("ImfData object of " ++ name)%string, w1).
Proof.
  intros Hms H.
  apply bind_Return_inv in H as ([] & w0 & Hinit & Hrun).
  unfold __init__ in Hinit.
  apply bind_Return_inv in Hinit as ([] & ws & Hset & Hread).
  assert (file (self w1) = PyStr name) as Hfile.
  { assert (touches ["b"; "v"; "clock"; "epsilon"]
              (for_each ms (fun m : @M F T unit => m))) as Hall.
    { apply touches_for_each. intros m Hm.
      rewrite Forall_forall in Hms. specialize (Hms m Hm).
      rewrite !elem_of_cons in Hms.
      destruct Hms as [-> | [-> | [-> | [-> | Hms]]]].
      - apply touches_calc_b. repeat constructor.
      - apply touches_calc_v. repeat constructor.
      - apply touches_calc_clock. repeat constructor.
      - apply touches_calc_epsilon.
      - now apply elem_of_nil in Hms. }
    destruct (Hall w0) as (_ & Hf & _). rewrite Hrun in Hf. cbn [snd] in Hf.
    rewrite Hf.
    destruct (read_data_frame fs fuel ws) as [Hf' _].
    rewrite Hread in Hf'. cbn [snd] in Hf'. rewrite Hf'.
    unfold set_file in Hset. now injection Hset as <-. }
  unfold __repr__, __str__.
  erewrite bind_Return; [| reflexivity]. now rewrite Hfile.
Qed.
End Printed.

(** ** The time string *)

Lemma split_from_token t acc rest :
  forallb (fun a => negb (isspace a)) (list_ascii_of_string t) = true ->
  split_from acc (t ++ rest)%string
  = split_from (rev (list_ascii_of_string t) ++ acc) rest.
Proof.
  revert acc. induction t as [| c t IH]; intros acc H; [reflexivity |].
  cbn in H. apply andb_true_iff in H as [Hc H].
  apply negb_true_iff in Hc.
  rewrite append_cons. cbn [split_from list_ascii_of_string rev].
  rewrite Hc, IH by exact H. now rewrite <- app_assoc.
Qed.

Lemma flush_token t :
  is_token t = true -> flush (rev (list_ascii_of_string t)) = [t].
Proof.
  intros H. apply andb_true_iff in H as [Hne _].
  apply negb_true_iff, String.eqb_neq in Hne.
  destruct t as [| c t]; [done |].
  unfold flush. destruct (rev (list_ascii_of_string (String c t))) eqn:Hrev.
  - apply (f_equal (@length _)) in Hrev. rewrite length_rev in Hrev.
    discriminate.
  - now rewrite <- Hrev, rev_involutive, string_of_list_ascii_of_string.
Qed.

(** [' '.join(tokens).split()] gives the tokens back. *)
Lemma split_join_tokens toks :
  Forall (fun t => is_token t = true) toks -> split (join " " toks) = toks.
Proof.
  induction 1 as [| t toks Ht Htoks IH]; [reflexivity |].
  pose proof Ht as Ht'. apply andb_true_iff in Ht' as [_ Hfree].
  unfold split in *. destruct toks as [| t2 toks].
  - cbn [join]. rewrite <- (append_empty_r t) at 1.
    rewrite split_from_token by exact Hfree.
    rewrite app_nil_r. cbn [split_from]. now apply flush_token.
  - change (join " " (t :: t2 :: toks))
      with (t ++ String " "%char (join " " (t2 :: toks)))%string.
    rewrite split_from_token by exact Hfree.
    rewrite app_nil_r. cbn [split_from].
    change (isspace " "%char) with true. cbn [orb].
    rewrite flush_token by exact Ht. now rewrite IH.
Qed.

Lemma split_from_tokens s :
  forall acc,
    Forall (fun a => isspace a = false) acc ->
    Forall (fun t => is_token t = true) (split_from acc s).
Proof.
  assert (forall acc, Forall (fun a => isspace a = false) acc ->
                      Forall (fun t => is_token t = true) (flush acc)) as Hflush.
  { intros [| a acc] Hacc; [constructor |]. cbn [flush].
    constructor; [| constructor]. unfold is_token.
    rewrite list_ascii_of_string_of_list_ascii. apply andb_true_iff. split.
    - apply negb_true_iff, String.eqb_neq. intros Heq.
      apply (f_equal list_ascii_of_string) in Heq.
      rewrite list_ascii_of_string_of_list_ascii in Heq. cbn in Heq.
      apply (f_equal (@length _)) in Heq.
      rewrite length_app in Heq. cbn in Heq. lia.
    - apply forallb_forall. intros c Hc. apply in_rev in Hc.
      rewrite Forall_forall in Hacc.
      apply negb_true_iff, Hacc. now apply list_elem_of_In. }
  induction s as [| c s IH]; intros acc Hacc; cbn [split_from].
  - now apply Hflush.
  - destruct (isspace c) eqn:Hc.
    + apply Forall_app. split; [now apply Hflush | apply IH; constructor].
    + apply IH. now constructor.
Qed.

(** X14: the time string the loader stitches together, [tNow], holds the
    first six tokens of the data line and nothing else: split on
    whitespace it gives them back, whatever blanks or tabs separated them
    in the file. *)
Theorem time_string_holds_the_first_six_tokens l :
  split (join " " (take 6 (split l))) = take 6 (split l).
Proof.
  apply split_join_tokens, Forall_take.
  apply split_from_tokens. constructor.
Qed.

(** ** The further properties at the example files and dictionaries *)

Lemma loader_writes_the_base_fields_only_witness :
  items (self (_read_data example_fs 2 override_world).2) !! "b"
  = items (self override_world) !! "b".
Proof.
  apply (loader_writes_the_base_fields_only example_fs 2 override_world "b").
  vm_compute. intros H. inversion H as [| ? ? ? H1]; subst.
  repeat (inversion H1 as [| ? ? ? H2]; subst; clear H1; rename H2 into H1).
Defined.

Lemma tokens_after_the_fifteenth_are_ignored_witness :
  parse_line (0, "1998 01 02 00 30 00 000 1.5 -2.0 3 -400 10 0.5 5.25 1e5 flag")
             fresh_world
  = parse_line (0, "1998 01 02 00 30 00 000 1.5 -2.0 3 -400 10 0.5 5.25 1e5")
               fresh_world.
Proof.
  apply (tokens_after_the_fifteenth_are_ignored 0
           "1998 01 02 00 30 00 000 1.5 -2.0 3 -400 10 0.5 5.25 1e5 flag"
           "1998 01 02 00 30 00 000 1.5 -2.0 3 -400 10 0.5 5.25 1e5"
           fresh_world).
  vm_compute. reflexivity.
Defined.

Lemma calc_epsilon_succeeds_after_a_load_witness :
  exists w',
    (__init__ example_fs (PyStr "imf.dat") 2;; calc_epsilon) fresh_world
    = (Return tt, w') /\
    forall k, k ∈ ["b"; "v"; "clock"; "epsilon"] ->
      exists xs, items (self w') !! k = Some (FloatArr xs) /\ length xs = 2.
Proof.
  apply (calc_epsilon_succeeds_after_a_load example_fs "imf.dat"
           imf_header imf_sentinel imf_data 2 fresh_world).
  - reflexivity.
  - repeat constructor; vm_compute; discriminate.
  - reflexivity.
  - cbn. lia.
  - vm_compute. reflexivity.
  - reflexivity.
  - reflexivity.
  - reflexivity.
Defined.

Lemma derived_method_that_raises_changes_nothing_witness :
  (calc_clock fresh_world).1 <> Running /\
  forall e w', calc_clock fresh_world = (Raise e, w') -> w' = fresh_world.
Proof.
  apply (derived_method_that_raises_changes_nothing "clock" calc_clock
           fresh_world).
  right. right. left.
Defined.

Lemma calc_epsilon_keeps_b_when_v_fails_witness :
  calc_epsilon
    (mkWorld (mkImfData (F:=R) (T:=datetime) (PyStr "imf.dat")
                (list_to_map [("bx", FloatArr [3%R]); ("by", FloatArr [4%R]);
                              ("bz", FloatArr [0%R])])) [])
  = (Raise (KeyError "vx"),
     mkWorld (mkImfData (PyStr "imf.dat")
                (<["b":=FloatArr (magnitude [3%R] [4%R] [0%R])]>
                   (list_to_map [("bx", FloatArr [3%R]); ("by", FloatArr [4%R]);
                                 ("bz", FloatArr [0%R])]))) []).
Proof.
  apply (calc_epsilon_keeps_b_when_v_fails (F:=R) (T:=datetime));
    reflexivity.
Defined.

Lemma calc_epsilon_twice_is_calc_epsilon_once_witness :
  calc_epsilon (calc_epsilon sample_world).2
  = (Return tt, (calc_epsilon sample_world).2).
Proof.
  apply (calc_epsilon_twice_is_calc_epsilon_once sample_world).
  vm_compute. reflexivity.
Defined.

Lemma calc_b_on_arrays_that_do_not_fit_witness :
  calc_b
    (mkWorld (mkImfData (F:=R) (T:=datetime) (PyStr "imf.dat")
                (list_to_map [("bx", FloatArr [1%R; 2%R; 3%R]);
                              ("by", FloatArr [1%R; 2%R])])) [])
  = (Raise ValueError,
     mkWorld (mkImfData (PyStr "imf.dat")
                (list_to_map [("bx", FloatArr [1%R; 2%R; 3%R]);
                              ("by", FloatArr [1%R; 2%R])])) []).
Proof.
  apply (calc_b_on_arrays_that_do_not_fit (F:=R) (T:=datetime)
           (PyStr "imf.dat") _ [] [1%R; 2%R; 3%R] [1%R; 2%R]).
  - reflexivity.
  - reflexivity.
  - cbn. lia.
  - cbn. lia.
  - cbn. lia.
Defined.

Lemma str_names_the_file_of_the_object_witness :
  let w1 := ((__init__ example_fs (PyStr "imf.dat") 2;;
              for_each [calc_b; calc_epsilon] (fun m => m)) fresh_world).2 in
  __str__ (fun _ => EmptyString) w1
  = (Return "ImfData object of imf.dat"%string, w1).
Proof.
  apply (str_names_the_file_of_the_object example_fs (fun _ => EmptyString)
           "imf.dat" 2 [calc_b; calc_epsilon] fresh_world).
  - repeat constructor.
  - vm_compute. reflexivity.
Defined.
